(** * Streamly recommendation engine: a shallow embedding of
      [src/recommendation/engine.py] and the properties of its ranking core.

    Conventions of the embedding.
    - Python [str] values are [string], the UTF-8 bytes of the text.
      [Py.lower] and [Py.strip] are [str.lower] and [str.strip] on ASCII
      text (bytes outside ASCII are left unchanged); module [Str] gives
      the two rules that lower or strip a text with the two methods as
      parameters, and what is stated there holds of every text.
    - Python [int] values are [Z]; Python [float] values are exact
      rationals [Q], compared with [==]: binary64 rounding error is not
      part of the model.
    - [math.log10] is a parameter of the scoring section.
    - SQLAlchemy rows are records; a table is the list of its rows.  In
      the engine section a query is a filter over that list, in table
      order, and a lookup by id is total.  Module [Sql] is the store as
      the code reaches it: an integer is bound to a statement only when
      it fits a signed 64-bit integer ([OverflowError] otherwise), the
      rows of a query come in the order the SQL engine gives them, a
      parameter, and a call returns a value or raises.  In table order
      and for ids that fit, the two agree
      ([sql_recommendations_in_table_order]).
    - The dictionaries the engine returns are [gmap string pyval].
    - Beside the engine the file covers its callers in [src/api/app.py]
      (a handler returns its response body), the store helpers of
      [src/database/queries.py], the paginated listing with
      [Title.to_dict], and the title cleaning of
      [src/data_processing/data_cleaner.py], a frame being the list of
      its rows.  What the SQL engine decides (row order under
      [order_by], the cut of [limit]) is a parameter. *)

From Stdlib Require Import ZArith QArith Qround Qabs Lqa Lia.
From Stdlib Require Import String Ascii List Bool.
From Stdlib Require Import Sorting.Sorted Sorting.Permutation.
From stdpp Require Import gmap strings.
Import ListNotations.

Local Open Scope string_scope.
Local Open Scope Z_scope.

(** ** Python primitives used by the engine *)

Module Py.

(** [c.lower()] for one ASCII character. *)
Definition lower_ascii (c : ascii) : ascii :=
  let n := nat_of_ascii c in
  if (Nat.leb 65 n && Nat.leb n 90)%bool then ascii_of_nat (n + 32) else c.

(** [s.lower()] *)
Fixpoint lower (s : string) : string :=
  match s with
  | EmptyString => EmptyString
  | String c s' => String (lower_ascii c) (lower s')
  end.

(** [c.isspace()] on ASCII: tab, newline, vertical tab, form feed,
    carriage return, the four separators 28..31 and the space. *)
Definition isspace (c : ascii) : bool :=
  let n := nat_of_ascii c in
  ((Nat.leb 9 n && Nat.leb n 13) || (Nat.leb 28 n && Nat.leb n 32))%bool.

Fixpoint lstrip (s : string) : string :=
  match s with
  | EmptyString => EmptyString
  | String c s' => if isspace c then lstrip s' else s
  end.

(** Drops trailing whitespace: a character is kept when it is not a
    space or when something is kept after it. *)
Fixpoint rstrip (s : string) : string :=
  match s with
  | EmptyString => EmptyString
  | String c s' =>
      match rstrip s' with
      | EmptyString => if isspace c then EmptyString else String c EmptyString
      | r => String c r
      end
  end.

(** [s.strip()] *)
Definition strip (s : string) : string := rstrip (lstrip s).

(** [s.split(sep)] for a one-character separator: the result always has
    at least one field, and [''.split(',')] is [['']]. *)
Fixpoint split (sep : ascii) (s : string) : list string :=
  match s with
  | EmptyString => [EmptyString]
  | String c s' =>
      if Ascii.eqb c sep then EmptyString :: split sep s'
      else match split sep s' with
           | [] => [String c EmptyString]
           | f :: fs => String c f :: fs
           end
  end.

(** [needle in hay] for two strings: substring test. *)
Fixpoint contains (needle hay : string) : bool :=
  (String.prefix needle hay ||
   match hay with
   | EmptyString => false
   | String _ hay' => contains needle hay'
   end)%bool.

(** [x in xs] for a list of strings. *)
Definition str_in (x : string) (xs : list string) : bool :=
  existsb (String.eqb x) xs.

(** Truthiness of an optional string column: [None] and [''] are false. *)
Definition truthy_str (o : option string) : bool :=
  match o with
  | Some s => negb (String.eqb s "")
  | None => false
  end.

(** Truthiness of an optional float column: [None] and [0.0] are false. *)
Definition truthy_float (o : option Q) : bool :=
  match o with
  | Some q => negb (Qeq_bool q 0)
  | None => false
  end.

(** [max(a, b)] and [min(a, b)] as Python evaluates them: the first
    argument is kept unless the second is strictly better. *)
Definition max (a b : Q) : Q := if Qle_bool b a then a else b.
Definition min (a b : Q) : Q := if Qle_bool a b then a else b.

(** Round half to even to the nearest integer. *)
Definition round_half_even (x : Q) : Z :=
  let f := Qfloor x in
  match ((x - inject_Z f) ?= (1 # 2))%Q with
  | Lt => f
  | Gt => f + 1
  | Eq => if Z.even f then f else f + 1
  end.

(** [round(x, 2)] *)
Definition round2 (x : Q) : Q :=
  inject_Z (round_half_even (x * 100)) / 100.

(** [l[:n]]: a negative bound counts from the end of the list. *)
Definition slice_to {A} (l : list A) (n : Z) : list A :=
  if 0 <=? n then firstn (Z.to_nat n) l
  else firstn (length l - Z.to_nat (- n))%nat l.

(** [l.sort(key=key, reverse=True)]: a stable sort on descending keys.
    Python guarantees stability also with [reverse=True]; the model is
    the stable insertion sort, elements taken from the right. *)
Fixpoint insert_desc {A} (key : A -> Q) (x : A) (l : list A) : list A :=
  match l with
  | [] => [x]
  | y :: l' =>
      if Qle_bool (key y) (key x) then x :: y :: l'
      else y :: insert_desc key x l'
  end.

Definition sort_desc {A} (key : A -> Q) (l : list A) : list A :=
  fold_right (insert_desc key) [] l.

End Py.

(** ** Data model: the rows of [src/database/models.py] *)

(** A row of table [profiles]. *)
Record Profile := mkProfile {
  profile_id : Z;
  account_id : Z;
  profile_name : string;
  kids_profile : bool;
  age_band : string;
  age_band_order : Z;
  preferred_language : string;
  preferences : option string;
  preference_count : Z
}.

(** A row of table [titles]. *)
Record Title := mkTitle {
  show_id : string;
  title_name : string;
  category : string;
  sub_category : option string;
  duration : Z;
  age_rating : string;
  type : string;
  year : Z;
  origin_region : string;
  language : string;
  episode_count : Z;
  is_kids_content : bool;
  imdb_rating : option Q;
  imdb_votes : option Q;
  has_imdb_data : bool;
  data_completeness_score : Q
}.

(** The title [t] with its [imdb_rating] column replaced. *)
Definition set_imdb_rating (t : Title) (r : option Q) : Title :=
  mkTitle (show_id t) (title_name t) (category t) (sub_category t)
          (duration t) (age_rating t) (type t) (year t) (origin_region t)
          (language t) (episode_count t) (is_kids_content t) r
          (imdb_votes t) (has_imdb_data t) (data_completeness_score t).

(** Values stored in the dictionaries the engine returns. *)
Inductive pyval :=
| VNone
| VInt (z : Z)
| VFloat (q : Q)
| VStr (s : string)
| VTitle (t : Title).

Definition opt_float (o : option Q) : pyval :=
  match o with Some q => VFloat q | None => VNone end.

(** ** The store: [src/database/queries.py] *)

Record DB := mkDB {
  profiles : list Profile;
  titles : list Title
}.

(** [query(Profile).filter(Profile.profile_id == profile_id).first()],
    the row found for an id the store can bind, that is, one that fits a
    signed 64-bit integer; [Sql.get_profile_by_id] is the lookup with the
    binding, for every id. *)
Definition get_profile_by_id (db : DB) (pid : Z) : option Profile :=
  find (fun p => profile_id p =? pid) (profiles db).

(** [query(Title).filter(Title.show_id == show_id).first()] *)
Definition get_title_by_show_id (db : DB) (sid : string) : option Title :=
  find (fun t => String.eqb (show_id t) sid) (titles db).

(** ** The engine: [src/recommendation/engine.py] *)

(** [self.weights] *)
Record Weights := mkWeights {
  preference_match : Q;
  language_match : Q;
  w_imdb_rating : Q;
  recency : Q;
  popularity : Q
}.

Definition weights : Weights := mkWeights 3 2 (5 # 2) 1 (3 # 2).

(** [_get_age_ratings]: a kids profile whose band is neither ['<13'] nor
    ['13-17'] falls through to the test on adult bands. *)
Definition _get_age_ratings (profile : Profile) : list string :=
  let adult_or_default :=
    if Py.str_in (age_band profile) ["18-24"; "25-34"; "35-49"; "50+"]
    then ["G"; "PG"; "13+"; "16+"; "18+"]
    else ["G"; "PG"; "13+"] in
  if kids_profile profile then
    if String.eqb (age_band profile) "<13" then ["G"; "PG"]
    else if String.eqb (age_band profile) "13-17" then ["G"; "PG"; "13+"]
    else adult_or_default
  else adult_or_default.

(** [_get_candidate_titles]: the rows that pass both filters, in table
    order; [Sql._get_candidate_titles] takes the order from the store. *)
Definition _get_candidate_titles (db : DB) (profile : Profile) : list Title :=
  let age_ratings := _get_age_ratings profile in
  let query := titles db in
  let query :=
    if kids_profile profile
    then List.filter (fun t => Bool.eqb (is_kids_content t) true) query
    else query in
  let query := List.filter (fun t => Py.str_in (age_rating t) age_ratings) query in
  query.

(** [_score_preference_match] *)
Definition _score_preference_match (title : Title) (profile : Profile) : Q :=
  if negb (Py.truthy_str (preferences profile)) then 5
  else
    let preferences :=
      map Py.strip (Py.split ","%char (default "" (preferences profile))) in
    if Py.str_in (category title) preferences then 10
    else if (Py.truthy_str (sub_category title) &&
             Py.str_in (default "" (sub_category title)) preferences)%bool
    then 8
    else
      let title_cat_lower := Py.lower (category title) in
      if existsb (fun pref =>
                    (Py.contains (Py.lower pref) title_cat_lower ||
                     Py.contains title_cat_lower (Py.lower pref))%bool)
                 preferences
      then 6
      else 3.

(** [_score_language_match] *)
Definition _score_language_match (title : Title) (profile : Profile) : Q :=
  if String.eqb (language title) "Unknown" then 5
  else if String.eqb (Py.lower (language title))
                     (Py.lower (preferred_language profile)) then 10
  else if (String.eqb (Py.lower (language title)) "english" ||
           String.eqb (language title) "en")%bool then 7
  else 3.

(** [_score_imdb_rating] *)
Definition _score_imdb_rating (title : Title) : Q :=
  match has_imdb_data title, imdb_rating title with
  | true, Some r => r
  | _, _ => 5
  end.

(** [_score_recency] *)
Definition current_year : Z := 2026.

Definition _score_recency (title : Title) : Q :=
  let age := current_year - year title in
  if age <=? 1 then 10
  else if age <=? 3 then 8
  else if age <=? 5 then 6
  else if age <=? 10 then 4
  else 2.

Section Engine.

(** [math.log10] *)
Variable log10 : Q -> Q.

(** [_score_popularity] *)
Definition _score_popularity (title : Title) : Q :=
  match has_imdb_data title, imdb_votes title with
  | true, Some votes =>
      if negb (Qle_bool 10 votes) then 0
      else
        let score := ((log10 votes - 1) * (333 # 100))%Q in
        Py.min 10 (Py.max 0 score)
  | _, _ => 5
  end.

(** [_calculate_score] *)
Definition _calculate_score (title : Title) (profile : Profile) : Q :=
  let score := 0%Q in
  let preference_score := _score_preference_match title profile in
  let score := (score + preference_score * preference_match weights)%Q in
  let language_score := _score_language_match title profile in
  let score := (score + language_score * language_match weights)%Q in
  let rating_score := _score_imdb_rating title in
  let score := (score + rating_score * w_imdb_rating weights)%Q in
  let recency_score := _score_recency title in
  let score := (score + recency_score * recency weights)%Q in
  let popularity_score := _score_popularity title in
  let score := (score + popularity_score * popularity weights)%Q in
  Py.round2 score.

(** [_calculate_similarity] *)
Definition _calculate_similarity (title1 title2 : Title) : Q :=
  let score := 0%Q in
  let score := (score + 10)%Q in
  let score :=
    if bool_decide (sub_category title1 = sub_category title2)
    then (score + 10)%Q else score in
  let score :=
    if String.eqb (type title1) (type title2)
    then (score + 5)%Q else score in
  let year_diff := Z.abs (year title1 - year title2) in
  let score :=
    if year_diff <=? 5
    then (score + inject_Z ((5 - year_diff) * 2))%Q else score in
  let score :=
    if (Py.truthy_float (imdb_rating title1) &&
        Py.truthy_float (imdb_rating title2))%bool
    then
      let rating_diff :=
        Qabs (default 0%Q (imdb_rating title1) -
              default 0%Q (imdb_rating title2)) in
      if Qle_bool rating_diff 1
      then (score + (1 - rating_diff) * 10)%Q else score
    else score in
  score.

(** [x['score']], the sort key of both rankings; every dictionary the
    engine builds has a float under ['score']. *)
Definition score_of (x : gmap string pyval) : Q :=
  match x !! "score" with
  | Some (VFloat q) => q
  | _ => 0%Q
  end.

(** The dictionary appended to [scored_titles] in [get_recommendations]. *)
Definition recommendation_record (title : Title) (score : Q)
  : gmap string pyval :=
  list_to_map
    [("title", VTitle title);
     ("score", VFloat score);
     ("show_id", VStr (show_id title));
     ("title_name", VStr (title_name title));
     ("category", VStr (category title));
     ("year", VInt (year title));
     ("imdb_rating", opt_float (imdb_rating title));
     ("age_rating", VStr (age_rating title));
     ("type", VStr (type title));
     ("language", VStr (language title));
     ("duration", VInt (duration title))].

(** [if exclude_show_ids: candidates = [t for t in candidates if
    t.show_id not in exclude_show_ids]]; [exclude_show_ids] is
    [Optional[List[str]]], and [None] and [[]] are both false. *)
Definition exclude_watched (exclude_show_ids : option (list string))
    (candidates : list Title) : list Title :=
  match exclude_show_ids with
  | Some (id :: ids) =>
      List.filter (fun t => negb (Py.str_in (show_id t) (id :: ids)))
                  candidates
  | _ => candidates
  end.

(** The list [scored_titles] of [get_recommendations] before it is
    sorted: one dictionary per remaining candidate, in retrieval order. *)
Definition scored_titles (db : DB) (profile : Profile)
    (exclude_show_ids : option (list string)) : list (gmap string pyval) :=
  let candidates := _get_candidate_titles db profile in
  let candidates := exclude_watched exclude_show_ids candidates in
  map (fun title =>
         recommendation_record title (_calculate_score title profile))
      candidates.

(** [get_recommendations] *)
Definition get_recommendations (db : DB) (pid : Z) (limit : Z)
    (exclude_show_ids : option (list string)) : list (gmap string pyval) :=
  match get_profile_by_id db pid with
  | None => []
  | Some profile =>
      let scored_titles := scored_titles db profile exclude_show_ids in
      let scored_titles := Py.sort_desc score_of scored_titles in
      Py.slice_to scored_titles limit
  end.

(** [r['category'] == category] *)
Definition category_is (category : string) (r : gmap string pyval) : bool :=
  match r !! "category" with
  | Some (VStr c) => String.eqb c category
  | _ => false
  end.

(** [get_recommendations_by_category] *)
Definition get_recommendations_by_category (db : DB) (pid : Z)
    (category : string) (limit : Z) : list (gmap string pyval) :=
  let all_recs := get_recommendations db pid 100 None in
  let filtered := List.filter (category_is category) all_recs in
  Py.slice_to filtered limit.

(** The dictionary appended to [scored] in [get_similar_titles]. *)
Definition similar_record (candidate : Title) (similarity_score : Q)
  : gmap string pyval :=
  list_to_map
    [("title", VTitle candidate);
     ("score", VFloat similarity_score);
     ("show_id", VStr (show_id candidate));
     ("title_name", VStr (title_name candidate));
     ("category", VStr (category candidate));
     ("year", VInt (year candidate));
     ("imdb_rating", opt_float (imdb_rating candidate))].

(** The query of [get_similar_titles]: same category, another show id. *)
Definition similar_candidates (db : DB) (title : Title) (sid : string)
  : list Title :=
  List.filter
    (fun t => (String.eqb (category t) (category title) &&
               negb (String.eqb (show_id t) sid))%bool)
    (titles db).

(** The list [scored] of [get_similar_titles] before it is sorted. *)
Definition scored_similar (db : DB) (title : Title) (sid : string)
  : list (gmap string pyval) :=
  map (fun candidate =>
         similar_record candidate (_calculate_similarity title candidate))
      (similar_candidates db title sid).

(** [get_similar_titles] *)
Definition get_similar_titles (db : DB) (sid : string) (limit : Z)
  : list (gmap string pyval) :=
  match get_title_by_show_id db sid with
  | None => []
  | Some title =>
      let scored := scored_similar db title sid in
      let scored := Py.sort_desc score_of scored in
      Py.slice_to scored limit
  end.

End Engine.

(** ** A small catalogue used by the examples *)

Definition t_anim : Title :=
  mkTitle "s1" "Paws" "Animation" (Some "Family") 90 "G" "Movie" 2025
          "US" "English" 1 true (Some (8 # 1)) (Some (1500 # 1)) true 1.

Definition t_noir : Title :=
  mkTitle "s2" "Night" "Drama" None 120 "18+" "Movie" 2010
          "FR" "French" 1 false (Some (7 # 1)) (Some (5 # 1)) true 1.

Definition t_anim2 : Title :=
  mkTitle "s3" "Claws" "Animation" (Some "Family") 95 "PG" "Series" 2024
          "US" "EN" 8 true None None false (1 # 2).

Definition t_anim3 : Title :=
  mkTitle "s4" "Jaws" "Animation" (Some "Family") 95 "PG" "Series" 2024
          "US" "Unknown" 8 true None None false (1 # 2).

Definition p_kid : Profile :=
  mkProfile 1 1 "Kid" true "<13" 1 "English" (Some "Kids,Animation") 2.

Definition p_adult : Profile :=
  mkProfile 2 1 "Adult" false "25-34" 4 "Zulu" None 0.

Definition db0 : DB := mkDB [p_kid; p_adult] [t_anim; t_noir; t_anim2; t_anim3].

(** A stand-in for [math.log10] in the examples: 3.176 at 1500 (the
    logarithm to three decimals), zero elsewhere. *)
Definition log10_stub (x : Q) : Q :=
  if Qeq_bool x 1500 then 3176 # 1000 else 0.

(** ** Vocabulary of the statements *)

(** The age bands of adult profiles, [['18-24', '25-34', '35-49', '50+']]. *)
Definition adult_bands : list string := ["18-24"; "25-34"; "35-49"; "50+"].

(** Descending order on sort keys. *)
Definition key_ge {A} (key : A -> Q) (x y : A) : Prop := (key y <= key x)%Q.

(** The elements whose key equals [q], in list order. *)
Definition with_key {A} (key : A -> Q) (q : Q) (l : list A) : list A :=
  List.filter (fun x => Qeq_bool (key x) q) l.

(** [ranked] is the stable descending ranking of [scored]: the same
    elements, keys in descending order, and for every key value the
    elements carrying it in the order they have in [scored]. *)
Definition stable_desc_ranking {A} (key : A -> Q) (scored ranked : list A)
  : Prop :=
  Permutation ranked scored /\
  StronglySorted (key_ge key) ranked /\
  forall q, with_key key q ranked = with_key key q scored.

(** The language rule as the specification words it: the code ["en"] is
    compared without regard to case. *)
Definition language_rule_claimed (title_language preferred : string) : Q :=
  if String.eqb title_language "Unknown" then 5
  else if String.eqb (Py.lower title_language) (Py.lower preferred) then 10
  else if (String.eqb (Py.lower title_language) "english" ||
           String.eqb (Py.lower title_language) "en")%bool then 7
  else 3.

(** The four conditional contributions of [_calculate_similarity], each
    the amount its branch adds to the running score. *)
Definition sub_category_points (t1 t2 : Title) : Q :=
  if bool_decide (sub_category t1 = sub_category t2) then 10 else 0.

Definition type_points (t1 t2 : Title) : Q :=
  if String.eqb (type t1) (type t2) then 5 else 0.

Definition year_points (t1 t2 : Title) : Q :=
  let year_diff := Z.abs (year t1 - year t2) in
  if year_diff <=? 5 then inject_Z ((5 - year_diff) * 2) else 0.

Definition rating_points (t1 t2 : Title) : Q :=
  if (Py.truthy_float (imdb_rating t1) && Py.truthy_float (imdb_rating t2))%bool
  then
    let rating_diff :=
      Qabs (default 0%Q (imdb_rating t1) - default 0%Q (imdb_rating t2)) in
    if Qle_bool rating_diff 1 then ((1 - rating_diff) * 10)%Q else 0
  else 0.

(** The rating contribution as the specification words it: present on
    both sides, whatever the values. *)
Definition rating_points_claimed (t1 t2 : Title) : Q :=
  match imdb_rating t1, imdb_rating t2 with
  | Some r1, Some r2 =>
      let ratingDiff := Qabs (r1 - r2) in
      if Qle_bool ratingDiff 1 then ((1 - ratingDiff) * 10)%Q else 0
  | _, _ => 0
  end.

(** The similarity score as the specification words it. *)
Definition similarity_claimed (t1 t2 : Title) : Q :=
  (10
   + (if bool_decide (sub_category t1 = sub_category t2) then 10 else 0)
   + (if String.eqb (type t1) (type t2) then 5 else 0)
   + (let yearDiff := Z.abs (year t1 - year t2) in
      if yearDiff <=? 5 then inject_Z ((5 - yearDiff) * 2) else 0)
   + rating_points_claimed t1 t2)%Q.

(** A rating column that is absent or different from zero. *)
Definition rating_nonzero (t : Title) : Prop :=
  forall r, imdb_rating t = Some r -> ~ (r == 0)%Q.

(** [k in r] for a returned dictionary. *)
Definition has_field (r : gmap string pyval) (k : string) : bool :=
  match r !! k with Some _ => true | None => false end.

(** The fields of a returned record that the specification does not mark
    optional, under the names the code gives them. *)
Definition mandatory_fields : list string :=
  ["show_id"; "title_name"; "category"; "year"; "type"; "duration";
   "age_rating"; "language"; "score"].

(** The fields every recommendation record carries, and the fields every
    similar-titles record carries. *)
Definition recommendation_fields : list string :=
  ["show_id"; "title_name"; "category"; "year"; "type"; "duration";
   "age_rating"; "language"; "imdb_rating"; "score"].

Definition similar_fields : list string :=
  ["show_id"; "title_name"; "category"; "year"; "imdb_rating"; "score"].

(** The keys of the two dictionaries the engine builds. *)
Definition recommendation_keys : gset string :=
  list_to_set ["title"; "score"; "show_id"; "title_name"; "category"; "year";
               "imdb_rating"; "age_rating"; "type"; "language"; "duration"].

Definition similar_keys : gset string :=
  list_to_set ["title"; "score"; "show_id"; "title_name"; "category"; "year";
               "imdb_rating"].

(** Two titles that share everything but the rating, one rated 0.0. *)
Definition t_zero : Title := set_imdb_rating t_anim (Some 0%Q).
Definition t_half : Title := set_imdb_rating t_anim (Some (1 # 2)).

(** ** The store as the code reaches it: integer binding, row order *)

Module Sql.

(** The exceptions that reach a caller in the code modelled here. *)
Inductive exn :=
| OverflowError
| ZeroDivisionError
| KeyError (k : string).

(** What a call does: it returns a value or raises. *)
Inductive outcome (A : Type) :=
| Returned (a : A)
| Raised (e : exn).

Arguments Returned {A} a.
Arguments Raised {A} e.

(** An integer bound to a parameter of a statement must fit SQLite's
    signed 64-bit INTEGER; the driver raises [OverflowError] otherwise. *)
Definition fits_int64 (z : Z) : bool :=
  ((- 2 ^ 63 <=? z) && (z <=? 2 ^ 63 - 1))%bool.

(** [get_profile_by_id] with the binding of [profile_id]. *)
Definition get_profile_by_id (db : DB) (pid : Z) : outcome (option Profile) :=
  if fits_int64 pid then Returned (get_profile_by_id db pid)
  else Raised OverflowError.

Section Engine.

(** [query(Title).filter(...).all()]: the rows that satisfy the filter,
    in the order the SQL engine returns them, which is the retrieval
    sequence of a ranking call. *)
Variable all_rows : (Title -> bool) -> list Title -> list Title.

(** [_calculate_score] and [_calculate_similarity]: parameters here, so
    that what is proved of a ranking holds of the binary64 scores of the
    code as of the exact scores of this file.  They return on every
    stored row: the columns they read without a test for [None] are
    declared [nullable=False]. *)
Variable calculate_score : Title -> Profile -> Q.
Variable calculate_similarity : Title -> Title -> Q.

(** [_get_candidate_titles]: one query with both filters. *)
Definition _get_candidate_titles (db : DB) (profile : Profile) : list Title :=
  let age_ratings := _get_age_ratings profile in
  all_rows
    (fun t =>
       ((if kids_profile profile then Bool.eqb (is_kids_content t) true
         else true)
        && Py.str_in (age_rating t) age_ratings)%bool)
    (titles db).

(** The list [scored_titles] of [get_recommendations] before it is
    sorted, in retrieval order. *)
Definition scored_titles (db : DB) (profile : Profile)
    (exclude_show_ids : option (list string)) : list (gmap string pyval) :=
  let candidates := _get_candidate_titles db profile in
  let candidates := exclude_watched exclude_show_ids candidates in
  map (fun title => recommendation_record title (calculate_score title profile))
      candidates.

(** [get_recommendations] *)
Definition get_recommendations (db : DB) (pid : Z) (limit : Z)
    (exclude_show_ids : option (list string))
  : outcome (list (gmap string pyval)) :=
  match get_profile_by_id db pid with
  | Raised e => Raised e
  | Returned None => Returned []
  | Returned (Some profile) =>
      let scored_titles := scored_titles db profile exclude_show_ids in
      let scored_titles := Py.sort_desc score_of scored_titles in
      Returned (Py.slice_to scored_titles limit)
  end.

(** [get_recommendations_by_category] *)
Definition get_recommendations_by_category (db : DB) (pid : Z)
    (category : string) (limit : Z) : outcome (list (gmap string pyval)) :=
  match get_recommendations db pid 100 None with
  | Raised e => Raised e
  | Returned all_recs =>
      let filtered := List.filter (category_is category) all_recs in
      Returned (Py.slice_to filtered limit)
  end.

(** The list [scored] of [get_similar_titles] before it is sorted, in
    retrieval order. *)
Definition scored_similar (db : DB) (title : Title) (sid : string)
  : list (gmap string pyval) :=
  map (fun candidate =>
         similar_record candidate (calculate_similarity title candidate))
      (all_rows
         (fun t => (String.eqb (category t) (category title) &&
                    negb (String.eqb (show_id t) sid))%bool)
         (titles db)).

(** [get_similar_titles]; a show id is text and binds as it is. *)
Definition get_similar_titles (db : DB) (sid : string) (limit : Z)
  : outcome (list (gmap string pyval)) :=
  match get_title_by_show_id db sid with
  | None => Returned []
  | Some title =>
      let scored := scored_similar db title sid in
      let scored := Py.sort_desc score_of scored in
      Returned (Py.slice_to scored limit)
  end.

End Engine.

End Sql.

(** ** The two rules on text with [str.lower] and [str.strip] as they are *)

Module Str.

Section Methods.

(** [str.lower] and [str.strip] of Python, on any text. *)
Variable lower : string -> string.
Variable strip : string -> string.

(** [_score_language_match] *)
Definition _score_language_match (title : Title) (profile : Profile) : Q :=
  if String.eqb (language title) "Unknown" then 5
  else if String.eqb (lower (language title))
                     (lower (preferred_language profile)) then 10
  else if (String.eqb (lower (language title)) "english" ||
           String.eqb (language title) "en")%bool then 7
  else 3.

(** [[p.strip() for p in preferences.split(',')]] *)
Definition preference_tags (preferences : string) : list string :=
  map strip (Py.split ","%char preferences).

(** [_score_preference_match] *)
Definition _score_preference_match (title : Title) (profile : Profile) : Q :=
  if negb (Py.truthy_str (preferences profile)) then 5
  else
    let preferences := preference_tags (default "" (preferences profile)) in
    if Py.str_in (category title) preferences then 10
    else if (Py.truthy_str (sub_category title) &&
             Py.str_in (default "" (sub_category title)) preferences)%bool
    then 8
    else
      let title_cat_lower := lower (category title) in
      if existsb (fun pref =>
                    (Py.contains (lower pref) title_cat_lower ||
                     Py.contains title_cat_lower (lower pref))%bool)
                 preferences
      then 6
      else 3.

End Methods.

End Str.

(** ** The store helpers of [src/database/queries.py] beside the lookups *)

Module Queries.

(** [_get_appropriate_age_ratings] *)
Definition _get_appropriate_age_ratings (age_band : string) (is_kids : bool)
  : list string :=
  let adult_or_default :=
    if Py.str_in age_band ["18-24"; "25-34"; "35-49"; "50+"]
    then ["G"; "PG"; "13+"; "16+"; "18+"]
    else ["G"; "PG"; "13+"] in
  if is_kids then
    if String.eqb age_band "<13" then ["G"; "PG"]
    else if String.eqb age_band "13-17" then ["G"; "PG"; "13+"]
    else adult_or_default
  else adult_or_default.

Section Ordered.

(** What the database does with [order_by(Title.has_imdb_data.desc(),
    Title.imdb_rating.desc())] and with [limit(n)]: both are left to the
    SQL engine and are parameters here. *)
Variable order_by_imdb : list Title -> list Title.
Variable sql_limit : Z -> list Title -> list Title.

(** [get_titles_for_profile]: the profile id and the limit are bound to
    the statements that carry them. *)
Definition get_titles_for_profile (db : DB) (pid : Z) (limit : Z)
  : Sql.outcome (list Title) :=
  match Sql.get_profile_by_id db pid with
  | Sql.Raised e => Sql.Raised e
  | Sql.Returned None => Sql.Returned []
  | Sql.Returned (Some profile) =>
      let query := titles db in
      let query :=
        if kids_profile profile
        then List.filter (fun t => Bool.eqb (is_kids_content t) true) query
        else query in
      let age_ratings :=
        _get_appropriate_age_ratings (age_band profile) (kids_profile profile) in
      let query :=
        List.filter (fun t => Py.str_in (age_rating t) age_ratings) query in
      let query := order_by_imdb query in
      if Sql.fits_int64 limit then Sql.Returned (sql_limit limit query)
      else Sql.Raised Sql.OverflowError
  end.

End Ordered.

End Queries.

(** ** The handlers of [src/api/app.py] that call the engine *)

Module App.

(** The body a handler returns: the success body with its echoed request
    fields, its data and its count, or the body of the [except Exception
    as e] branch with the status code and the exception whose text is the
    message. *)
Inductive response :=
| Success (echo : list (string * pyval)) (data : list (gmap string pyval))
          (count : Z)
| Error (code : Z) (e : Sql.exn).

(** How a formatted record reads a field of an engine record:
    [rec[k]], which raises [KeyError(k)] on a missing key, or
    [rec.get(k)], which gives [None] instead. *)
Inductive access :=
| Item (k : string)
| Get (k : string).

Definition read (rec : gmap string pyval) (a : access) : string + pyval :=
  match a with
  | Item k => match rec !! k with Some v => inr v | None => inl k end
  | Get k => inr (default VNone (rec !! k))
  end.

(** The entries of a dictionary display, evaluated in order; the first
    missing key is the one raised. *)
Fixpoint read_fields (rec : gmap string pyval)
    (fields : list (string * access)) : string + list (string * pyval) :=
  match fields with
  | [] => inr []
  | (name, a) :: fields' =>
      match read rec a with
      | inl k => inl k
      | inr v =>
          match read_fields rec fields' with
          | inl k => inl k
          | inr entries => inr ((name, v) :: entries)
          end
      end
  end.

Definition format_record (fields : list (string * access))
    (rec : gmap string pyval) : string + gmap string pyval :=
  match read_fields rec fields with
  | inl k => inl k
  | inr entries => inr (list_to_map entries)
  end.

(** [[{...} for rec in recs]] *)
Fixpoint format_all (fields : list (string * access))
    (recs : list (gmap string pyval)) : string + list (gmap string pyval) :=
  match recs with
  | [] => inr []
  | rec :: recs' =>
      match format_record fields rec with
      | inl k => inl k
      | inr d =>
          match format_all fields recs' with
          | inl k => inl k
          | inr ds => inr (d :: ds)
          end
      end
  end.

(** The body of a handler's [try]: the engine call, then the display of
    its records, then [jsonify({'status': 'success', ..., 'data': data,
    'count': len(data)})]; whatever is raised on the way is answered by
    the [except] branch with status 500. *)
Definition respond (echo : list (string * pyval))
    (fields : list (string * access))
    (called : Sql.outcome (list (gmap string pyval))) : response :=
  match called with
  | Sql.Raised e => Error 500 e
  | Sql.Returned recs =>
      match format_all fields recs with
      | inr data => Success echo data (Z.of_nat (length data))
      | inl k => Error 500 (Sql.KeyError k)
      end
  end.

(** The display of [recs_data] in [get_recommendations]. *)
Definition recommendation_fields : list (string * access) :=
  [("show_id", Item "show_id"); ("title_name", Item "title_name");
   ("category", Item "category"); ("sub_category", Get "sub_category");
   ("year", Item "year"); ("type", Item "type");
   ("duration", Item "duration"); ("age_rating", Item "age_rating");
   ("language", Item "language"); ("imdb_rating", Item "imdb_rating");
   ("score", Item "score")].

(** The display of [recs_data] in [get_recommendations_by_category]. *)
Definition category_fields : list (string * access) :=
  [("show_id", Item "show_id"); ("title_name", Item "title_name");
   ("category", Item "category"); ("year", Item "year");
   ("type", Item "type"); ("age_rating", Item "age_rating");
   ("imdb_rating", Item "imdb_rating"); ("score", Item "score")].

(** The display of [similar_data] in [get_similar_titles]. *)
Definition similar_fields : list (string * access) :=
  [("show_id", Item "show_id"); ("title_name", Item "title_name");
   ("category", Item "category"); ("year", Item "year");
   ("imdb_rating", Item "imdb_rating"); ("similarity_score", Item "score")].

(** [exclude_show_ids if exclude_show_ids else None] *)
Definition exclude_argument (exclude_show_ids : list string)
  : option (list string) :=
  match exclude_show_ids with
  | [] => None
  | _ => Some exclude_show_ids
  end.

Section Handlers.

(** The store's row order, the two scoring functions and [str.strip],
    as in [Sql] and [Str]. *)
Variable all_rows : (Title -> bool) -> list Title -> list Title.
Variable calculate_score : Title -> Profile -> Q.
Variable calculate_similarity : Title -> Title -> Q.
Variable strip : string -> string.

(** [[s.strip() for s in exclude_param.split(',') if s.strip()]] *)
Definition parse_exclude (exclude_param : string) : list string :=
  map strip
      (List.filter (fun s => negb (String.eqb (strip s) ""))
                   (Py.split ","%char exclude_param)).

(** [get_recommendations(profile_id)]; [limit] and [exclude_param] are the
    request arguments after conversion, defaults 10 and ['']. *)
Definition get_recommendations (db : DB) (profile_id : Z) (limit : Z)
    (exclude_param : string) : response :=
  let limit := Z.min limit 50 in
  let exclude_show_ids := parse_exclude exclude_param in
  respond [("profile_id", VInt profile_id)] recommendation_fields
          (Sql.get_recommendations all_rows calculate_score db profile_id
             limit (exclude_argument exclude_show_ids)).

(** [get_recommendations_by_category(profile_id, category)] *)
Definition get_recommendations_by_category (db : DB) (profile_id : Z)
    (category : string) (limit : Z) : response :=
  let limit := Z.min limit 50 in
  respond [("profile_id", VInt profile_id); ("category", VStr category)]
          category_fields
          (Sql.get_recommendations_by_category all_rows calculate_score db
             profile_id category limit).

(** [get_similar_titles(show_id)] *)
Definition get_similar_titles (db : DB) (show_id : string) (limit : Z)
  : response :=
  let limit := Z.min limit 20 in
  respond [("show_id", VStr show_id)] similar_fields
          (Sql.get_similar_titles all_rows calculate_similarity db show_id
             limit).

End Handlers.

(** Python's [sorted] on strings: ascending code-point order, one
    insertion per element. *)
Fixpoint insert_str (x : string) (l : list string) : list string :=
  match l with
  | [] => [x]
  | y :: l' => if String.leb x y then x :: y :: l' else y :: insert_str x l'
  end.

Definition sorted_str (l : list string) : list string :=
  fold_right insert_str [] l.

(** [categories_list] of [get_categories] and [get_dashboard_data]:
    [sorted([c[0] for c in categories if c[0] and c[0] != 'Unknown'])],
    over [query(Title.category).distinct().all()]. *)
Definition categories_list (db : DB) : list string :=
  let categories := nodup string_dec (map category (titles db)) in
  sorted_str
    (List.filter
       (fun c => (negb (String.eqb c "") && negb (String.eqb c "Unknown"))%bool)
       categories).

End App.

(** The title [t] with its two IMDB columns replaced. *)
Definition set_imdb_columns (t : Title) (r v : option Q) : Title :=
  mkTitle (show_id t) (title_name t) (category t) (sub_category t)
          (duration t) (age_rating t) (type t) (year t) (origin_region t)
          (language t) (episode_count t) (is_kids_content t) r v
          (has_imdb_data t) (data_completeness_score t).

(** The preference tags [_score_preference_match] compares with:
    [[p.strip() for p in preferences.split(',')]]. *)
Definition preference_tags (preferences : string) : list string :=
  map Py.strip (Py.split ","%char preferences).

(** What the three handlers keep of an engine record [rec] in the
    formatted record [d]. *)
Definition recommendation_copy (rec d : gmap string pyval) : Prop :=
  d !! "show_id" = rec !! "show_id" /\
  d !! "title_name" = rec !! "title_name" /\
  d !! "category" = rec !! "category" /\
  d !! "age_rating" = rec !! "age_rating" /\
  d !! "score" = rec !! "score" /\
  d !! "sub_category" = Some VNone /\
  d !! "title" = None.

Definition category_copy (rec d : gmap string pyval) : Prop :=
  d !! "show_id" = rec !! "show_id" /\
  d !! "category" = rec !! "category" /\
  d !! "score" = rec !! "score" /\
  d !! "title" = None.

Definition similar_copy (rec d : gmap string pyval) : Prop :=
  d !! "show_id" = rec !! "show_id" /\
  d !! "category" = rec !! "category" /\
  d !! "similarity_score" = rec !! "score" /\
  d !! "score" = None /\
  d !! "title" = None.

(** The data of a success body; an error body has none. *)
Definition data_of (r : App.response) : option (list (gmap string pyval)) :=
  match r with
  | App.Success _ data _ => Some data
  | App.Error _ _ => None
  end.

(** ** The paginated listing: [Title.to_dict] and [get_titles_paginated] *)

Module Paging.

(** Values of the columns in [Title.to_dict]. *)
Inductive column_value :=
| CNull
| CBool (b : bool)
| CInt (z : Z)
| CFloat (q : Q)
| CStr (s : string).

Definition opt_str (o : option string) : column_value :=
  match o with Some s => CStr s | None => CNull end.

Definition opt_num (o : option Q) : column_value :=
  match o with Some q => CFloat q | None => CNull end.

(** [Title.to_dict] of [src/database/models.py] *)
Definition to_dict (t : Title) : gmap string column_value :=
  list_to_map
    [("show_id", CStr (show_id t));
     ("title_name", CStr (title_name t));
     ("category", CStr (category t));
     ("sub_category", opt_str (sub_category t));
     ("duration", CInt (duration t));
     ("age_rating", CStr (age_rating t));
     ("type", CStr (type t));
     ("year", CInt (year t));
     ("origin_region", CStr (origin_region t));
     ("language", CStr (language t));
     ("episode_count", CInt (episode_count t));
     ("is_kids_content", CBool (is_kids_content t));
     ("imdb_rating", opt_num (imdb_rating t));
     ("imdb_votes", opt_num (imdb_votes t))].

(** The body of the paginated listing: the data with the [pagination]
    object, or the body of the [except] branch with its status code. *)
Inductive response :=
| Success (data : list (gmap string column_value))
          (page per_page total pages : Z)
| Error (code : Z).

(** [query.offset(offset).limit(limit).all()] on SQLite: a negative
    offset skips nothing and a negative limit does not cut. *)
Definition offset_limit {A} (offset limit : Z) (rows : list A) : list A :=
  let rows := skipn (Z.to_nat offset) rows in
  if limit <? 0 then rows else firstn (Z.to_nat limit) rows.

Section Listing.

(** [query.order_by(desc(column))] and [query.order_by(asc(column))]:
    the row order is the database's, by column name and direction. *)
Variable order_by : string -> bool -> list Title -> list Title.

(** [get_titles_paginated]; the arguments are the request arguments
    after conversion, defaults 1, 20, ['imdb_rating'] and ['desc'].  The
    offset and the limit are bound to the statement, which raises when
    one does not fit, and the division by a [per_page] of zero raises;
    the handler answers either with status 500. *)
Definition get_titles_paginated (db : DB) (page per_page : Z)
    (sort_by order : string) : response :=
  let page := Z.max page 1 in
  let per_page := Z.min per_page 100 in
  let sort_by :=
    if Py.str_in sort_by ["imdb_rating"; "year"; "title_name"]
    then sort_by else "imdb_rating" in
  let query :=
    if String.eqb order "desc" then order_by sort_by true (titles db)
    else order_by sort_by false (titles db) in
  let total := Z.of_nat (length (titles db)) in
  let offset := (page - 1) * per_page in
  if negb (Sql.fits_int64 offset && Sql.fits_int64 per_page) then Error 500
  else
    let results := offset_limit offset per_page query in
    if per_page =? 0 then Error 500
    else Success (map to_dict results) page per_page total
                 ((total + per_page - 1) / per_page).

(** The rows the listing pages through, in the database's order. *)
Definition listed (db : DB) (sort_by order : string) : list Title :=
  let sort_by :=
    if Py.str_in sort_by ["imdb_rating"; "year"; "title_name"]
    then sort_by else "imdb_rating" in
  if String.eqb order "desc" then order_by sort_by true (titles db)
  else order_by sort_by false (titles db).

End Listing.

Definition data_of (r : response) : list (gmap string column_value) :=
  match r with
  | Success data _ _ _ _ => data
  | Error _ => []
  end.

End Paging.

(** ** The cleaning of the titles: [src/data_processing/data_cleaner.py] *)

Module Cleaner.

(** A row of [titles.csv].  The columns the cleaning fills or tests for
    presence are options, a missing cell being [None]; the other columns
    are taken as present. *)
Record Row := mkRow {
  show_id : string;
  title_name : string;
  category : option string;
  sub_category : option string;
  duration : Z;
  age_rating : string;
  type : string;
  year : Z;
  origin_region : option string;
  language : option string;
  episode_count : Z;
  is_kids_content : bool;
  imdb_rating : option Q;
  imdb_votes : option Q
}.

(** A row of the cleaned frame: the columns of the file and the two
    quality flags added by step 7. *)
Record CleanRow := mkCleanRow {
  row : Row;
  has_imdb_data : bool;
  data_completeness_score : Q
}.

(** [column.notnull().astype(int)] on one cell. *)
Definition notnull {A} (cell : option A) : Z :=
  match cell with Some _ => 1 | None => 0 end.

(** [column.isnull()] on one cell. *)
Definition isnull {A} (cell : option A) : bool :=
  match cell with Some _ => false | None => true end.

(** The mask of step 1: kids content rated 18+ or 16+. *)
Definition kids_with_adult_rating (r : Row) : bool :=
  (Bool.eqb (is_kids_content r) true &&
   Py.str_in (age_rating r) ["18+"; "16+"])%bool.

(** The mask of step 2: a movie with more than one episode. *)
Definition movie_with_episodes (r : Row) : bool :=
  (String.eqb (type r) "Movie" && (1 <? episode_count r))%bool.

(** The seven steps of [clean_titles] on one row; every step works on
    the frame column by column, each row by itself. *)
Definition clean_row (r : Row) : CleanRow :=
  let is_kids_content :=
    if kids_with_adult_rating r then false else is_kids_content r in
  let episode_count :=
    if movie_with_episodes r then 1 else episode_count r in
  let category := Some (default "Unknown" (category r)) in
  let sub_category :=
    if isnull (sub_category r) then category else sub_category r in
  let origin_region := Some (default "Unknown" (origin_region r)) in
  let language := Some (default "Unknown" (language r)) in
  let has_imdb_data := negb (isnull (imdb_rating r)) in
  let data_completeness_score :=
    (inject_Z (notnull category + notnull sub_category
               + notnull origin_region + notnull language
               + notnull (imdb_rating r)) / 5)%Q in
  mkCleanRow
    (mkRow (show_id r) (title_name r) category sub_category (duration r)
           (age_rating r) (type r) (year r) origin_region language
           episode_count is_kids_content (imdb_rating r) (imdb_votes r))
    has_imdb_data data_completeness_score.

(** The numbers [clean_titles] writes into its log, step by step. *)
Record Counts := mkCounts {
  inconsistent_count : Z;
  movies_count : Z;
  missing_cat : Z;
  missing_subcat : Z;
  missing_region : Z;
  missing_lang : Z
}.

Definition count (mask : Row -> bool) (df : list Row) : Z :=
  Z.of_nat (length (List.filter mask df)).

(** [clean_titles]: the cleaned frame and the logged counts. *)
Definition clean_titles (df : list Row) : list CleanRow * Counts :=
  (map clean_row df,
   mkCounts (count kids_with_adult_rating df)
            (count movie_with_episodes df)
            (count (fun r => isnull (category r)) df)
            (count (fun r => isnull (sub_category r)) df)
            (count (fun r => isnull (origin_region r)) df)
            (count (fun r => isnull (language r)) df)).

End Cleaner.

(** A rating column that is absent or on the scale 0 to 10. *)
Definition rating_on_scale (t : Title) : Prop :=
  forall r, imdb_rating t = Some r -> (0 <= r <= 10)%Q.

(** ** The primitives and the engine on examples *)

Example lower_ex : Py.lower "EnGlish 9" = "english 9".
Proof. reflexivity. Qed.

Example strip_ex : Py.strip "  Sci Fi  " = "Sci Fi".
Proof. reflexivity. Qed.

Example split_ex : Py.split "," "Kids, Animation,," = ["Kids"; " Animation"; ""; ""].
Proof. reflexivity. Qed.

Example contains_ex :
  Py.contains "ma" "drama" = true /\ Py.contains "" "x" = true /\
  Py.contains "dramas" "drama" = false.
Proof. repeat split; reflexivity. Qed.

Example round2_ex :
  (Py.round2 (1234567 # 100000) == 1235 # 100)%Q /\
  (Py.round2 (125 # 1000) == 12 # 100)%Q /\
  (Py.round2 (135 # 1000) == 14 # 100)%Q.
Proof. repeat split; reflexivity. Qed.

Example slice_ex :
  Py.slice_to [1; 2; 3] 2 = [1; 2] /\ Py.slice_to [1; 2; 3] (-1) = [1; 2] /\
  Py.slice_to [1; 2; 3] 7 = [1; 2; 3] /\ Py.slice_to [1; 2; 3] (-5) = [].
Proof. repeat split; reflexivity. Qed.

Example sort_ex :
  Py.sort_desc (fun p : Z * Q => snd p) [(1, 2#1); (2, 3#1); (3, 4#2); (4, 3#1)]
  = [(2, 3#1); (4, 3#1); (1, 2#1); (3, 4#2)].
Proof. reflexivity. Qed.

(** ** Facts about the Python primitives *)

Section SliceFacts.

Context {A : Type}.

Lemma slice_to_nonneg (l : list A) (n : Z) :
  0 <= n -> Py.slice_to l n = firstn (Z.to_nat n) l.
Proof.
  intros Hn. unfold Py.slice_to.
  destruct (0 <=? n) eqn:E; [reflexivity | apply Z.leb_gt in E; lia].
Qed.

(** Whatever the bound, a slice [l[:n]] is a prefix of [l]. *)
Lemma slice_to_prefix (l : list A) (n : Z) :
  exists k, Py.slice_to l n = firstn k l.
Proof.
  unfold Py.slice_to. destruct (0 <=? n); eexists; reflexivity.
Qed.

Lemma In_firstn (k : nat) (l : list A) (x : A) :
  In x (firstn k l) -> In x l.
Proof.
  revert l. induction k as [|k IH]; intros [|y l]; simpl; try tauto.
  intros [->|H]; [now left | right; now apply IH].
Qed.

Lemma In_slice_to (l : list A) (n : Z) (x : A) :
  In x (Py.slice_to l n) -> In x l.
Proof.
  destruct (slice_to_prefix l n) as [k ->]. apply In_firstn.
Qed.

End SliceFacts.

Section SortFacts.

Context {A : Type} (key : A -> Q).

Lemma insert_desc_perm (x : A) (l : list A) :
  Permutation (Py.insert_desc key x l) (x :: l).
Proof.
  induction l as [|y l IH]; simpl.
  - apply Permutation_refl.
  - destruct (Qle_bool (key y) (key x)).
    + apply Permutation_refl.
    + eapply perm_trans; [apply perm_skip, IH | apply perm_swap].
Qed.

Lemma sort_desc_perm (l : list A) : Permutation (Py.sort_desc key l) l.
Proof.
  induction l as [|x l IH]; simpl.
  - apply perm_nil.
  - eapply perm_trans; [apply insert_desc_perm | now apply perm_skip].
Qed.

Lemma insert_desc_hd (x : A) (l : list A) (z : A) :
  (key_ge key) z x -> HdRel (key_ge key) z l -> HdRel (key_ge key) z (Py.insert_desc key x l).
Proof.
  intros Hzx Hl. destruct l as [|y l]; simpl.
  - now constructor.
  - destruct (Qle_bool (key y) (key x)); constructor; trivial.
    now inversion Hl.
Qed.

Lemma insert_desc_sorted (x : A) (l : list A) :
  Sorted (key_ge key) l -> Sorted (key_ge key) (Py.insert_desc key x l).
Proof.
  induction 1 as [|y l Hs IH Hhd]; simpl.
  - repeat constructor.
  - destruct (Qle_bool (key y) (key x)) eqn:E.
    + apply Qle_bool_iff in E. repeat constructor; trivial.
    + constructor; [exact IH|].
      apply insert_desc_hd; [|exact Hhd].
      unfold key_ge. destruct (Qlt_le_dec (key x) (key y)) as [Hlt|Hle].
      * now apply Qlt_le_weak.
      * apply Qle_bool_iff in Hle. congruence.
Qed.

Lemma sort_desc_sorted (l : list A) : Sorted (key_ge key) (Py.sort_desc key l).
Proof.
  induction l as [|x l IH]; simpl; [constructor | now apply insert_desc_sorted].
Qed.

Lemma insert_desc_with_key (q : Q) (x : A) (l : list A) :
  with_key key q (Py.insert_desc key x l) = with_key key q (x :: l).
Proof.
  induction l as [|y l IH]; [reflexivity|].
  simpl Py.insert_desc. destruct (Qle_bool (key y) (key x)) eqn:E; [reflexivity|].
  unfold with_key in *. simpl in *. rewrite IH.
  destruct (Qeq_bool (key x) q) eqn:Ex; [|reflexivity].
  destruct (Qeq_bool (key y) q) eqn:Ey; [|reflexivity].
  apply Qeq_bool_iff in Ex, Ey.
  assert (Hle : (key y <= key x)%Q) by (rewrite Ex, Ey; apply Qle_refl).
  apply Qle_bool_iff in Hle. congruence.
Qed.

(** Stability: elements with equal keys keep their relative order. *)
Lemma sort_desc_stable (q : Q) (l : list A) :
  with_key key q (Py.sort_desc key l) = with_key key q l.
Proof.
  induction l as [|x l IH]; [reflexivity|].
  simpl Py.sort_desc. rewrite insert_desc_with_key.
  unfold with_key in *. simpl. now rewrite IH.
Qed.

Lemma firstn_sorted (k : nat) (l : list A) :
  Sorted (key_ge key) l -> Sorted (key_ge key) (firstn k l).
Proof.
  revert l. induction k as [|k IH]; intros l Hs; simpl; [constructor|].
  destruct l as [|x l]; [constructor|].
  inversion Hs as [|? ? Hs' Hhd]; subst. constructor; [now apply IH|].
  destruct l as [|y l]; destruct k; simpl; constructor. now inversion Hhd.
Qed.

End SortFacts.

(** ** Age gate *)

Lemma str_in_In (x : string) (xs : list string) :
  Py.str_in x xs = true <-> In x xs.
Proof.
  unfold Py.str_in. rewrite existsb_exists. split.
  - intros [y [Hy E]]. apply String.eqb_eq in E. now subst.
  - intros H. exists x. split; [exact H | apply String.eqb_refl].
Qed.

Lemma str_in_not_In (x : string) (xs : list string) :
  Py.str_in x xs = false <-> ~ In x xs.
Proof.
  rewrite <- str_in_In. destruct (Py.str_in x xs); split; congruence.
Qed.

(** The four branches of [_get_age_ratings], by the test that selects them. *)
Lemma age_ratings_cases (p : Profile) :
  (kids_profile p = true /\ age_band p = "<13" /\
   _get_age_ratings p = ["G"; "PG"]) \/
  (kids_profile p = true /\ age_band p = "13-17" /\
   _get_age_ratings p = ["G"; "PG"; "13+"]) \/
  (In (age_band p) adult_bands /\
   _get_age_ratings p = ["G"; "PG"; "13+"; "16+"; "18+"]) \/
  (~ (kids_profile p = true /\ age_band p = "<13") /\
   ~ (kids_profile p = true /\ age_band p = "13-17") /\
   ~ In (age_band p) adult_bands /\
   _get_age_ratings p = ["G"; "PG"; "13+"]).
Proof.
  unfold _get_age_ratings; cbv zeta.
  destruct (kids_profile p) eqn:K.
  - destruct (String.eqb (age_band p) "<13") eqn:E1.
    { apply String.eqb_eq in E1. left. auto. }
    destruct (String.eqb (age_band p) "13-17") eqn:E2.
    { apply String.eqb_eq in E2. right. left. auto. }
    apply String.eqb_neq in E1, E2.
    destruct (Py.str_in (age_band p) _) eqn:E3.
    + apply str_in_In in E3. right. right. left. auto.
    + apply str_in_not_In in E3. right. right. right.
      repeat split; trivial; intros [_ H]; contradiction.
  - destruct (Py.str_in (age_band p) _) eqn:E3.
    + apply str_in_In in E3. right. right. left. auto.
    + apply str_in_not_In in E3. right. right. right.
      repeat split; trivial; intros [H _]; discriminate.
Qed.

(** C1, as claimed, fails: the kids profile of age band ['<13'] is given
    exactly [['G', 'PG']], so ['13+'] is not in every branch. *)
Lemma age_ratings_13plus_not_in_every_branch :
  ~ (forall p : Profile,
       _get_age_ratings p <> [] /\
       In "G" (_get_age_ratings p) /\
       In "PG" (_get_age_ratings p) /\
       In "13+" (_get_age_ratings p)).
Proof.
  intros H. destruct (H p_kid) as (_ & _ & _ & H13).
  vm_compute in H13. intuition discriminate.
Qed.

(** C1 (amended): for every profile the list returned by
    [_get_age_ratings] is non-empty and contains G and PG; for a kids
    profile of age band ['<13'] it is exactly [['G', 'PG']], and in every
    other branch it contains 13+ as well: 13+ is in the list exactly when
    the profile is not a kids profile of age band ['<13']. *)
Theorem age_ratings_nonempty_G_PG :
  forall p : Profile,
    _get_age_ratings p <> [] /\
    In "G" (_get_age_ratings p) /\
    In "PG" (_get_age_ratings p) /\
    (kids_profile p = true /\ age_band p = "<13" ->
     _get_age_ratings p = ["G"; "PG"]) /\
    (~ (kids_profile p = true /\ age_band p = "<13") ->
     In "13+" (_get_age_ratings p)) /\
    (In "13+" (_get_age_ratings p) <->
     ~ (kids_profile p = true /\ age_band p = "<13")).
Proof.
  intros p.
  destruct (age_ratings_cases p)
    as [(K & B & E) | [(K & B & E) | [(B & E) | (N1 & N2 & N3 & E)]]];
    rewrite E;
    (split; [discriminate|]); (split; [simpl; tauto|]);
    (split; [simpl; tauto|]).
  - split; [reflexivity|]. split; [tauto|]. split; [|tauto].
    intros [H|[H|[]]]; discriminate.
  - assert (N : ~ (kids_profile p = true /\ age_band p = "<13")).
    { intros [_ B']. rewrite B in B'. discriminate. }
    split; [tauto|]. simpl. tauto.
  - assert (N : ~ (kids_profile p = true /\ age_band p = "<13")).
    { intros [_ B']. rewrite B' in B. simpl in B. intuition discriminate. }
    split; [tauto|]. simpl. tauto.
  - split; [tauto|]. simpl. tauto.
Qed.

Lemma age_ratings_nonempty_G_PG_witness :
  _get_age_ratings p_kid = ["G"; "PG"] /\
  In "13+" (_get_age_ratings p_adult) /\
  ~ In "13+" (_get_age_ratings p_kid).
Proof.
  destruct (age_ratings_nonempty_G_PG p_kid) as (_ & _ & _ & Hk & _ & Hk').
  destruct (age_ratings_nonempty_G_PG p_adult) as (_ & _ & _ & _ & Ha & _).
  split; [|split].
  - apply Hk. split; reflexivity.
  - apply Ha. intros [H _]. discriminate H.
  - intros H. apply Hk' in H. apply H. split; reflexivity.
Defined.

(** C2: [_get_age_ratings] is the policy table.  A kids profile of band
    ['<13'] gets G, PG; a kids profile of band ['13-17'] gets G, PG, 13+;
    any profile of an adult band gets all five ratings; every other
    combination, an unknown band included, gets the fallback G, PG, 13+. *)
Theorem age_ratings_policy_table :
  forall p : Profile,
    (kids_profile p = true -> age_band p = "<13" ->
     _get_age_ratings p = ["G"; "PG"]) /\
    (kids_profile p = true -> age_band p = "13-17" ->
     _get_age_ratings p = ["G"; "PG"; "13+"]) /\
    (In (age_band p) adult_bands ->
     _get_age_ratings p = ["G"; "PG"; "13+"; "16+"; "18+"]) /\
    (~ (kids_profile p = true /\ age_band p = "<13") ->
     ~ (kids_profile p = true /\ age_band p = "13-17") ->
     ~ In (age_band p) adult_bands ->
     _get_age_ratings p = ["G"; "PG"; "13+"]).
Proof.
  intros p.
  destruct (age_ratings_cases p)
    as [(K & B & E) | [(K & B & E) | [(B & E) | (N1 & N2 & N3 & E)]]];
    rewrite E; repeat split; intros; trivial;
    try tauto; try congruence.
  all: try (rewrite B in *; simpl in *; intuition discriminate).
  all: match goal with
       | Hb : age_band ?q = _, Hin : In (age_band ?q) adult_bands |- _ =>
           rewrite Hb in Hin; unfold adult_bands in Hin; simpl in Hin;
           exfalso; intuition discriminate
       end.
Qed.

Lemma age_ratings_policy_table_witness :
  _get_age_ratings p_kid = ["G"; "PG"] /\
  _get_age_ratings (mkProfile 3 1 "Teen" true "13-17" 2 "English" None 0)
    = ["G"; "PG"; "13+"] /\
  _get_age_ratings (mkProfile 4 1 "Kid50" true "50+" 6 "English" None 0)
    = ["G"; "PG"; "13+"; "16+"; "18+"] /\
  _get_age_ratings (mkProfile 5 1 "Odd" false "teen" 0 "English" None 0)
    = ["G"; "PG"; "13+"].
Proof.
  split; [|split; [|split]].
  - destruct (age_ratings_policy_table p_kid) as (H & _).
    apply H; reflexivity.
  - destruct (age_ratings_policy_table
                (mkProfile 3 1 "Teen" true "13-17" 2 "English" None 0))
      as (_ & H & _).
    apply H; reflexivity.
  - destruct (age_ratings_policy_table
                (mkProfile 4 1 "Kid50" true "50+" 6 "English" None 0))
      as (_ & _ & H & _).
    apply H. simpl. tauto.
  - destruct (age_ratings_policy_table
                (mkProfile 5 1 "Odd" false "teen" 0 "English" None 0))
      as (_ & _ & _ & H).
    apply H.
    + intros [K _]. discriminate K.
    + intros [K _]. discriminate K.
    + simpl. intuition discriminate.
Defined.

(** ** Ranking engine: candidates, exclusion, not-found *)

Section RankingFacts.

Variable log10 : Q -> Q.

Lemma candidate_titles_spec (db : DB) (profile : Profile) (t : Title) :
  In t (_get_candidate_titles db profile) <->
  In t (titles db) /\
  In (age_rating t) (_get_age_ratings profile) /\
  (kids_profile profile = true -> is_kids_content t = true).
Proof.
  unfold _get_candidate_titles. rewrite filter_In, str_in_In.
  destruct (kids_profile profile).
  - rewrite filter_In. destruct (is_kids_content t); simpl; intuition congruence.
  - intuition congruence.
Qed.

Lemma exclude_watched_spec (excl : option (list string))
    (candidates : list Title) (t : Title) :
  In t (exclude_watched excl candidates) <->
  In t candidates /\ forall ids, excl = Some ids -> ~ In (show_id t) ids.
Proof.
  unfold exclude_watched. destruct excl as [[|id ids]|].
  - split; [intros H; split; trivial | tauto].
    intros ids E. injection E as <-. simpl. tauto.
  - rewrite filter_In, negb_true_iff, str_in_not_In. split.
    + intros [H N]. split; trivial. intros ids' E. now injection E as <-.
    + intros [H N]. split; trivial. now apply N.
  - split; [intros H; split; trivial | tauto]. discriminate.
Qed.

Lemma In_sort_desc {A} (key : A -> Q) (l : list A) (x : A) :
  In x (Py.sort_desc key l) <-> In x l.
Proof.
  split; apply Permutation_in;
    [apply sort_desc_perm | apply Permutation_sym, sort_desc_perm].
Qed.

Lemma recommendations_from_scored (db : DB) (pid limit : Z)
    (excl : option (list string)) (profile : Profile)
    (r : gmap string pyval) :
  get_profile_by_id db pid = Some profile ->
  In r (get_recommendations log10 db pid limit excl) ->
  In r (scored_titles log10 db profile excl).
Proof.
  intros Hp. unfold get_recommendations. rewrite Hp.
  intros H. apply In_slice_to in H. now apply In_sort_desc in H.
Qed.

(** C3: every record returned by [get_recommendations] is the record of
    a stored title that passed the candidate filters: its show id is not
    in the exclusion list, its age rating is one of the profile's
    permitted ratings and, for a kids profile, it is kids content. *)
Theorem recommendations_pass_filters :
  forall (db : DB) (pid limit : Z) (excl : option (list string))
         (profile : Profile) (r : gmap string pyval),
    get_profile_by_id db pid = Some profile ->
    In r (get_recommendations log10 db pid limit excl) ->
    exists t : Title,
      In t (titles db) /\
      r = recommendation_record t (_calculate_score log10 t profile) /\
      r !! "show_id" = Some (VStr (show_id t)) /\
      r !! "age_rating" = Some (VStr (age_rating t)) /\
      (forall ids, excl = Some ids -> ~ In (show_id t) ids) /\
      In (age_rating t) (_get_age_ratings profile) /\
      (kids_profile profile = true -> is_kids_content t = true).
Proof.
  intros db pid limit excl profile r Hp Hr.
  apply (recommendations_from_scored _ _ _ _ _ _ Hp) in Hr.
  unfold scored_titles in Hr. apply in_map_iff in Hr.
  destruct Hr as (t & <- & Ht).
  apply exclude_watched_spec in Ht. destruct Ht as [Ht Hex].
  apply candidate_titles_spec in Ht. destruct Ht as (Hin & Hrate & Hkids).
  exists t. repeat split; trivial.
Qed.

Lemma get_profile_by_id_absent (db : DB) (pid : Z) :
  (forall p, In p (profiles db) -> profile_id p <> pid) ->
  get_profile_by_id db pid = None.
Proof.
  intros H. unfold get_profile_by_id.
  destruct (find _ _) as [p|] eqn:E; [|reflexivity].
  apply find_some in E. destruct E as [Hin Heq].
  apply Z.eqb_eq in Heq. now apply H in Hin.
Qed.

Lemma get_title_by_show_id_absent (db : DB) (sid : string) :
  (forall t, In t (titles db) -> show_id t <> sid) ->
  get_title_by_show_id db sid = None.
Proof.
  intros H. unfold get_title_by_show_id.
  destruct (find _ _) as [t|] eqn:E; [|reflexivity].
  apply find_some in E. destruct E as [Hin Heq].
  apply String.eqb_eq in Heq. now apply H in Hin.
Qed.

End RankingFacts.

Lemma recommendations_pass_filters_witness :
  exists t : Title,
    In t (titles db0) /\
    recommendation_record t_anim (9087 # 100) =
      recommendation_record t (_calculate_score log10_stub t p_kid) /\
    recommendation_record t_anim (9087 # 100) !! "show_id"
      = Some (VStr (show_id t)) /\
    recommendation_record t_anim (9087 # 100) !! "age_rating"
      = Some (VStr (age_rating t)) /\
    (forall ids, Some ["s3"] = Some ids -> ~ In (show_id t) ids) /\
    In (age_rating t) (_get_age_ratings p_kid) /\
    (kids_profile p_kid = true -> is_kids_content t = true).
Proof.
  apply (recommendations_pass_filters log10_stub db0 1 10 (Some ["s3"]) p_kid).
  - reflexivity.
  - vm_compute. left. reflexivity.
Defined.

(** ** The rankings over the store: binding of ids, not-found *)

Lemma fits_int64_spec (z : Z) :
  Sql.fits_int64 z = true <-> - 2 ^ 63 <= z <= 2 ^ 63 - 1.
Proof.
  unfold Sql.fits_int64. rewrite andb_true_iff, !Z.leb_le. tauto.
Qed.

Lemma sql_profile_lookup (db : DB) (pid : Z) :
  Sql.fits_int64 pid = true ->
  Sql.get_profile_by_id db pid = Sql.Returned (get_profile_by_id db pid).
Proof. intros H. unfold Sql.get_profile_by_id. now rewrite H. Qed.

Lemma sql_profile_lookup_overflow (db : DB) (pid : Z) :
  Sql.fits_int64 pid = false ->
  Sql.get_profile_by_id db pid = Sql.Raised Sql.OverflowError.
Proof. intros H. unfold Sql.get_profile_by_id. now rewrite H. Qed.

Lemma sql_profile_found (db : DB) (pid : Z) (profile : Profile) :
  Sql.get_profile_by_id db pid = Sql.Returned (Some profile) ->
  Sql.fits_int64 pid = true /\ get_profile_by_id db pid = Some profile.
Proof.
  unfold Sql.get_profile_by_id. destruct (Sql.fits_int64 pid); [|discriminate].
  intros H. split; [reflexivity | congruence].
Qed.

Lemma filter_filter {A} (f g : A -> bool) (l : list A) :
  List.filter f (List.filter g l) = List.filter (fun x => (g x && f x)%bool) l.
Proof.
  induction l as [|x l IH]; simpl; [reflexivity|].
  destruct (g x); simpl; [destruct (f x)|]; now rewrite ?IH.
Qed.

(** With rows retrieved in table order, the candidates of the store are
    those of [_get_candidate_titles]. *)
Lemma sql_candidates_in_table_order (db : DB) (profile : Profile) :
  Sql._get_candidate_titles (@List.filter Title) db profile
  = _get_candidate_titles db profile.
Proof.
  unfold Sql._get_candidate_titles, _get_candidate_titles; cbv zeta.
  destruct (kids_profile profile).
  - now rewrite filter_filter.
  - reflexivity.
Qed.

Section StoreFacts.

Variable all_rows : (Title -> bool) -> list Title -> list Title.
Variable calculate_score : Title -> Profile -> Q.
Variable calculate_similarity : Title -> Title -> Q.

(** C4 (amended): for a profile id that fits the store's 64-bit integer
    and that no stored profile carries, [get_recommendations] returns the
    empty list, and for a show id that no stored title carries,
    [get_similar_titles] returns the empty list; in both cases the call
    returns and nothing is raised, whatever the limit, the exclusion list
    and the row order of the store. *)
Theorem not_found_gives_empty_list :
  forall db : DB,
    (forall (pid limit : Z) (excl : option (list string)),
        Sql.fits_int64 pid = true ->
        (forall p, In p (profiles db) -> profile_id p <> pid) ->
        Sql.get_recommendations all_rows calculate_score db pid limit excl
        = Sql.Returned []) /\
    (forall (sid : string) (limit : Z),
        (forall t, In t (titles db) -> show_id t <> sid) ->
        Sql.get_similar_titles all_rows calculate_similarity db sid limit
        = Sql.Returned []).
Proof.
  intros db. split.
  - intros pid limit excl Hfit H. unfold Sql.get_recommendations.
    rewrite sql_profile_lookup by exact Hfit.
    now rewrite get_profile_by_id_absent.
  - intros sid limit H. unfold Sql.get_similar_titles.
    now rewrite get_title_by_show_id_absent.
Qed.

(** In range and in table order the rankings over the store are the
    rankings of the engine section. *)
Lemma sql_recommendations_in_table_order (log10 : Q -> Q) (db : DB)
    (pid limit : Z) (excl : option (list string)) :
  Sql.fits_int64 pid = true ->
  Sql.get_recommendations (@List.filter Title) (_calculate_score log10)
    db pid limit excl
  = Sql.Returned (get_recommendations log10 db pid limit excl).
Proof.
  intros Hfit. unfold Sql.get_recommendations, get_recommendations.
  rewrite sql_profile_lookup by exact Hfit.
  destruct (get_profile_by_id db pid) as [profile|]; [|reflexivity].
  unfold Sql.scored_titles, scored_titles; cbv zeta.
  now rewrite sql_candidates_in_table_order.
Qed.

Lemma sql_similar_titles_in_table_order (db : DB) (sid : string) (limit : Z) :
  Sql.get_similar_titles (@List.filter Title) _calculate_similarity db sid limit
  = Sql.Returned (get_similar_titles db sid limit).
Proof.
  unfold Sql.get_similar_titles, get_similar_titles.
  destruct (get_title_by_show_id db sid); reflexivity.
Qed.

End StoreFacts.

(** C4, as claimed, fails: no stored profile carries the id [2^63], yet
    [get_recommendations] does not return the empty list for it: binding
    the id to the lookup raises [OverflowError], which reaches the
    caller. *)
Lemma profile_id_beyond_int64_raises :
  ~ (forall (db : DB) (pid limit : Z) (excl : option (list string)),
       (forall p, In p (profiles db) -> profile_id p <> pid) ->
       Sql.get_recommendations (@List.filter Title)
         (_calculate_score log10_stub) db pid limit excl
       = Sql.Returned []).
Proof.
  intros H. specialize (H db0 (2 ^ 63) 10 None).
  assert (Habsent : forall p, In p (profiles db0) -> profile_id p <> 2 ^ 63).
  { intros p Hp. simpl in Hp. destruct Hp as [<-|[<-|[]]]; discriminate. }
  apply H in Habsent. vm_compute in Habsent. discriminate Habsent.
Qed.

Example profile_id_beyond_int64_outcome :
  Sql.get_recommendations (@List.filter Title) (_calculate_score log10_stub)
    db0 (2 ^ 63) 10 None
  = Sql.Raised Sql.OverflowError.
Proof. reflexivity. Qed.

Lemma not_found_gives_empty_list_witness :
  Sql.get_recommendations (@List.filter Title) (_calculate_score log10_stub)
    db0 99 10 None = Sql.Returned [] /\
  Sql.get_similar_titles (@List.filter Title) _calculate_similarity
    db0 "not-a-real-id" 10 = Sql.Returned [].
Proof.
  destruct (not_found_gives_empty_list (@List.filter Title)
              (_calculate_score log10_stub) _calculate_similarity db0)
    as [Hrec Hsim].
  split.
  - apply Hrec; [reflexivity|]. intros p Hp. simpl in Hp.
    destruct Hp as [<-|[<-|[]]]; discriminate.
  - apply Hsim. intros t Ht. simpl in Ht.
    destruct Ht as [<-|[<-|[<-|[<-|[]]]]]; discriminate.
Defined.

(** ** Ranking engine: order of the output *)

Section OrderFacts.

Context {A : Type} (key : A -> Q).

Lemma key_ge_trans : Relations_1.Transitive (key_ge key).
Proof.
  intros x y z Hxy Hyz. unfold key_ge in *. eapply Qle_trans; eassumption.
Qed.

Lemma sort_desc_ranking (scored : list A) :
  stable_desc_ranking key scored (Py.sort_desc key scored).
Proof.
  split; [apply sort_desc_perm|]. split.
  - apply Sorted_StronglySorted; [apply key_ge_trans | apply sort_desc_sorted].
  - intros q. apply sort_desc_stable.
Qed.

Lemma firstn_strongly_sorted (k : nat) (l : list A) :
  StronglySorted (key_ge key) l -> StronglySorted (key_ge key) (firstn k l).
Proof.
  intros H. apply Sorted_StronglySorted; [apply key_ge_trans|].
  apply firstn_sorted. now apply StronglySorted_Sorted.
Qed.

(** The elements of a prefix that carry key [q] are a prefix of the
    elements of the whole list that carry it. *)
Lemma with_key_firstn (q : Q) (k : nat) (l : list A) :
  exists rest, with_key key q l = (with_key key q (firstn k l) ++ rest)%list.
Proof.
  exists (with_key key q (skipn k l)).
  unfold with_key. rewrite <- List.filter_app. now rewrite firstn_skipn.
Qed.

Lemma rankings_equal (r1 r2 : list A) :
  Permutation r1 r2 ->
  StronglySorted (key_ge key) r1 -> StronglySorted (key_ge key) r2 ->
  (forall q, with_key key q r1 = with_key key q r2) ->
  r1 = r2.
Proof.
  revert r2. induction r1 as [|x r1 IH]; intros r2 Hp S1 S2 Hk.
  - apply Permutation_nil in Hp. now subst.
  - destruct r2 as [|y r2].
    { apply Permutation_sym, Permutation_nil in Hp. discriminate. }
    inversion S1 as [|? ? S1' F1]; subst.
    inversion S2 as [|? ? S2' F2]; subst.
    assert (Hyx : (key y <= key x)%Q).
    { assert (Hin : In y (x :: r1))
        by (eapply Permutation_in; [apply Permutation_sym, Hp | now left]).
      destruct Hin as [->|Hin]; [apply Qle_refl|].
      rewrite List.Forall_forall in F1. now apply F1. }
    assert (Hxy : (key x <= key y)%Q).
    { assert (Hin : In x (y :: r2))
        by (eapply Permutation_in; [apply Hp | now left]).
      destruct Hin as [->|Hin]; [apply Qle_refl|].
      rewrite List.Forall_forall in F2. now apply F2. }
    assert (Exy : (key y == key x)%Q) by now apply Qle_antisym.
    assert (x = y).
    { specialize (Hk (key x)). unfold with_key in Hk. simpl in Hk.
      apply Qeq_bool_iff in Exy. rewrite Exy, Qeq_bool_refl in Hk.
      now injection Hk. }
    subst y. f_equal. apply IH; trivial.
    + now apply Permutation_cons_inv in Hp.
    + intros q. specialize (Hk q). unfold with_key in *. simpl in Hk.
      destruct (Qeq_bool (key x) q); [now injection Hk | exact Hk].
Qed.

(** A list has one stable descending ranking: whatever stable sort
    produces it, the ranked list is the same. *)
Lemma stable_desc_ranking_unique (scored r1 r2 : list A) :
  stable_desc_ranking key scored r1 -> stable_desc_ranking key scored r2 ->
  r1 = r2.
Proof.
  intros (P1 & S1 & K1) (P2 & S2 & K2). apply rankings_equal; trivial.
  - eapply perm_trans; [exact P1 | now apply Permutation_sym].
  - intros q. now rewrite K1, K2.
Qed.

End OrderFacts.

Lemma slice_to_neg {A} (l : list A) (n : Z) :
  n < 0 -> Py.slice_to l n = firstn (length l - Z.to_nat (- n))%nat l.
Proof.
  intros H. unfold Py.slice_to.
  destruct (Z.leb_spec 0 n); [lia | reflexivity].
Qed.

(** What both rankings do with their scored list: sort it, stably, on
    descending score and return a slice of the result. *)
Lemma sorted_slice_ranking (scored : list (gmap string pyval)) (limit : Z) :
  exists ranked,
    stable_desc_ranking score_of scored ranked /\
    Py.slice_to (Py.sort_desc score_of scored) limit
    = Py.slice_to ranked limit /\
    (0 <= limit -> Py.slice_to ranked limit = firstn (Z.to_nat limit) ranked) /\
    (limit < 0 ->
     Py.slice_to ranked limit
     = firstn (length ranked - Z.to_nat (- limit))%nat ranked) /\
    StronglySorted (key_ge score_of) (Py.slice_to ranked limit) /\
    forall q, exists rest,
      with_key score_of q scored
      = (with_key score_of q (Py.slice_to ranked limit) ++ rest)%list.
Proof.
  exists (Py.sort_desc score_of scored).
  pose proof (sort_desc_ranking score_of scored) as Hr.
  split; [exact Hr|]. split; [reflexivity|].
  split; [apply slice_to_nonneg|]. split; [apply slice_to_neg|].
  destruct (slice_to_prefix (Py.sort_desc score_of scored) limit) as [k ->].
  split.
  - apply firstn_strongly_sorted, Hr.
  - intros q. destruct Hr as (_ & _ & Hst). rewrite <- Hst.
    apply with_key_firstn.
Qed.

Section RankingOrder.

Variable all_rows : (Title -> bool) -> list Title -> list Title.
Variable calculate_score : Title -> Profile -> Q.
Variable calculate_similarity : Title -> Title -> Q.

(** C8 (amended): for every limit, every row order of the store and every
    scoring function, the output of [get_recommendations] for a stored
    profile and of [get_similar_titles] for a stored title is a slice of
    the stable descending ranking of the scored candidates: a permutation
    of them, sorted on descending score, in which candidates of equal
    score keep the relative order of the store's retrieval sequence.  The
    output is itself sorted, and its records of any one score are an
    initial part of the candidates of that score in retrieval order.  For
    a non-negative limit the output is the first [limit] entries of the
    ranking; for a negative limit it is the ranking without its last
    [-limit] entries. *)
Theorem rankings_sorted_stable_truncated :
  forall (db : DB) (limit : Z),
    (forall (pid : Z) (excl : option (list string)) (profile : Profile),
        Sql.get_profile_by_id db pid = Sql.Returned (Some profile) ->
        exists ranked,
          stable_desc_ranking score_of
            (Sql.scored_titles all_rows calculate_score db profile excl)
            ranked /\
          Sql.get_recommendations all_rows calculate_score db pid limit excl
          = Sql.Returned (Py.slice_to ranked limit) /\
          (0 <= limit ->
           Py.slice_to ranked limit = firstn (Z.to_nat limit) ranked) /\
          (limit < 0 ->
           Py.slice_to ranked limit
           = firstn (length ranked - Z.to_nat (- limit))%nat ranked) /\
          StronglySorted (key_ge score_of) (Py.slice_to ranked limit) /\
          forall q, exists rest,
            with_key score_of q
              (Sql.scored_titles all_rows calculate_score db profile excl)
            = (with_key score_of q (Py.slice_to ranked limit) ++ rest)%list) /\
    (forall (sid : string) (title : Title),
        get_title_by_show_id db sid = Some title ->
        exists ranked,
          stable_desc_ranking score_of
            (Sql.scored_similar all_rows calculate_similarity db title sid)
            ranked /\
          Sql.get_similar_titles all_rows calculate_similarity db sid limit
          = Sql.Returned (Py.slice_to ranked limit) /\
          (0 <= limit ->
           Py.slice_to ranked limit = firstn (Z.to_nat limit) ranked) /\
          (limit < 0 ->
           Py.slice_to ranked limit
           = firstn (length ranked - Z.to_nat (- limit))%nat ranked) /\
          StronglySorted (key_ge score_of) (Py.slice_to ranked limit) /\
          forall q, exists rest,
            with_key score_of q
              (Sql.scored_similar all_rows calculate_similarity db title sid)
            = (with_key score_of q (Py.slice_to ranked limit) ++ rest)%list).
Proof.
  intros db limit. split.
  - intros pid excl profile Hp.
    destruct (sorted_slice_ranking
                (Sql.scored_titles all_rows calculate_score db profile excl)
                limit) as (ranked & Hr & Hs & Hrest).
    exists ranked. split; [exact Hr|]. split; [|exact Hrest].
    unfold Sql.get_recommendations. rewrite Hp. cbv zeta. now rewrite Hs.
  - intros sid title Ht.
    destruct (sorted_slice_ranking
                (Sql.scored_similar all_rows calculate_similarity db title sid)
                limit) as (ranked & Hr & Hs & Hrest).
    exists ranked. split; [exact Hr|]. split; [|exact Hrest].
    unfold Sql.get_similar_titles. rewrite Ht. cbv zeta. now rewrite Hs.
Qed.

(** The scored candidates of both rankings are listed in retrieval
    order: each list is the image of the rows of one query, the
    recommendations' after the exclusion, which keeps the rows' order. *)
Lemma scored_lists_in_retrieval_order (db : DB) :
  (forall profile excl, exists keep,
      Sql.scored_titles all_rows calculate_score db profile excl
      = map (fun t => recommendation_record t (calculate_score t profile))
            (List.filter keep
               (Sql._get_candidate_titles all_rows db profile))) /\
  (forall title sid, exists keep,
      Sql.scored_similar all_rows calculate_similarity db title sid
      = map (fun t => similar_record t (calculate_similarity title t))
            (all_rows keep (titles db))).
Proof.
  split.
  - intros profile excl. unfold Sql.scored_titles, exclude_watched; cbv zeta.
    destruct excl as [[|id ids]|].
    + exists (fun _ => true). f_equal. symmetry.
      apply forallb_filter_id, forallb_forall. reflexivity.
    + eexists. reflexivity.
    + exists (fun _ => true). f_equal. symmetry.
      apply forallb_filter_id, forallb_forall. reflexivity.
  - intros title sid. eexists. reflexivity.
Qed.

End RankingOrder.

(** C8, as claimed, fails: with limit [-1] the similar titles of ["s1"],
    two stored candidates, are one record and not the first [limit]
    entries of the ranking, of which there are none. *)
Lemma negative_limit_is_not_a_truncation :
  ~ (forall (db : DB) (sid : string) (limit : Z) (title : Title),
       get_title_by_show_id db sid = Some title ->
       exists ranked,
         stable_desc_ranking score_of
           (Sql.scored_similar (@List.filter Title) _calculate_similarity
              db title sid) ranked /\
         Sql.get_similar_titles (@List.filter Title) _calculate_similarity
           db sid limit
         = Sql.Returned (firstn (Z.to_nat limit) ranked)).
Proof.
  intros H.
  destruct (H db0 "s1" (-1) t_anim eq_refl) as (ranked & _ & Hout).
  simpl firstn in Hout.
  assert (Hlen : forall l : list (gmap string pyval),
             Sql.get_similar_titles (@List.filter Title) _calculate_similarity
               db0 "s1" (-1) = Sql.Returned l -> length l = 1%nat).
  { intros l Hl. rewrite sql_similar_titles_in_table_order in Hl.
    injection Hl as <-. reflexivity. }
  apply Hlen in Hout. discriminate Hout.
Qed.

Lemma rankings_sorted_stable_truncated_witness :
  (exists ranked,
      stable_desc_ranking score_of
        (Sql.scored_titles (@List.filter Title) (_calculate_score log10_stub)
           db0 p_kid None) ranked /\
      Sql.get_recommendations (@List.filter Title)
        (_calculate_score log10_stub) db0 1 2 None
      = Sql.Returned (Py.slice_to ranked 2) /\
      (0 <= 2 -> Py.slice_to ranked 2 = firstn (Z.to_nat 2) ranked) /\
      (2 < 0 ->
       Py.slice_to ranked 2
       = firstn (length ranked - Z.to_nat (- 2))%nat ranked) /\
      StronglySorted (key_ge score_of) (Py.slice_to ranked 2) /\
      forall q, exists rest,
        with_key score_of q
          (Sql.scored_titles (@List.filter Title)
             (_calculate_score log10_stub) db0 p_kid None)
        = (with_key score_of q (Py.slice_to ranked 2) ++ rest)%list) /\
  (exists ranked,
      stable_desc_ranking score_of
        (Sql.scored_similar (@List.filter Title) _calculate_similarity
           db0 t_anim "s1") ranked /\
      Sql.get_similar_titles (@List.filter Title) _calculate_similarity
        db0 "s1" (-1)
      = Sql.Returned (Py.slice_to ranked (-1)) /\
      (0 <= -1 -> Py.slice_to ranked (-1) = firstn (Z.to_nat (-1)) ranked) /\
      (-1 < 0 ->
       Py.slice_to ranked (-1)
       = firstn (length ranked - Z.to_nat (- -1))%nat ranked) /\
      StronglySorted (key_ge score_of) (Py.slice_to ranked (-1)) /\
      forall q, exists rest,
        with_key score_of q
          (Sql.scored_similar (@List.filter Title) _calculate_similarity
             db0 t_anim "s1")
        = (with_key score_of q (Py.slice_to ranked (-1)) ++ rest)%list).
Proof.
  split.
  - destruct (rankings_sorted_stable_truncated (@List.filter Title)
                (_calculate_score log10_stub) _calculate_similarity db0 2)
      as [Hr _].
    apply (Hr 1 None p_kid). reflexivity.
  - destruct (rankings_sorted_stable_truncated (@List.filter Title)
                (_calculate_score log10_stub) _calculate_similarity db0 (-1))
      as [_ Hs].
    apply (Hs "s1" t_anim). reflexivity.
Defined.

Example similar_titles_tie_keeps_store_order :
  map (fun r => (r !! "show_id", score_of r)) (get_similar_titles db0 "s1" 10)
  = [(Some (VStr "s3"), 28%Q); (Some (VStr "s4"), 28%Q)].
Proof. reflexivity. Qed.

Example negative_limit_drops_from_the_end :
  map (fun r => r !! "show_id") (get_similar_titles db0 "s1" (-1))
  = [Some (VStr "s3")].
Proof. reflexivity. Qed.

(** ** Shape of the returned records *)

Lemma recommendation_record_keys (t : Title) (s : Q) :
  dom (recommendation_record t s) = recommendation_keys.
Proof. destruct t. destruct imdb_rating0; vm_compute; reflexivity. Qed.

Lemma similar_record_keys (t : Title) (s : Q) :
  dom (similar_record t s) = similar_keys.
Proof. destruct t. destruct imdb_rating0; vm_compute; reflexivity. Qed.

Lemma recommendation_record_fields (t : Title) (s : Q) :
  Forall (fun k => has_field (recommendation_record t s) k = true)
         recommendation_fields.
Proof. repeat constructor. Qed.

Lemma similar_record_fields (t : Title) (s : Q) :
  Forall (fun k => has_field (similar_record t s) k = true) similar_fields.
Proof. repeat constructor. Qed.

Section RecordFacts.

Variable log10 : Q -> Q.

Lemma recommendations_are_records (db : DB) (pid limit : Z)
    (excl : option (list string)) :
  Forall (fun r => exists t s, r = recommendation_record t s)
         (get_recommendations log10 db pid limit excl).
Proof.
  apply List.Forall_forall. intros r Hr. unfold get_recommendations in Hr.
  destruct (get_profile_by_id db pid) as [profile|]; [|destruct Hr].
  apply In_slice_to, In_sort_desc in Hr.
  unfold scored_titles in Hr. apply in_map_iff in Hr.
  destruct Hr as (t & <- & _). eauto.
Qed.

Lemma similar_titles_are_records (db : DB) (sid : string) (limit : Z) :
  Forall (fun r => exists t s, r = similar_record t s)
         (get_similar_titles db sid limit).
Proof.
  apply List.Forall_forall. intros r Hr. unfold get_similar_titles in Hr.
  destruct (get_title_by_show_id db sid) as [title|]; [|destruct Hr].
  apply In_slice_to, In_sort_desc in Hr.
  unfold scored_similar in Hr. apply in_map_iff in Hr.
  destruct Hr as (t & <- & _). eauto.
Qed.

(** C9 (amended): every record returned by [get_recommendations] and by
    [get_recommendations_by_category] contains the fields show_id,
    title_name, category, year, type, duration, age_rating, language,
    imdb_rating and score; every record returned by [get_similar_titles]
    contains the fields show_id, title_name, category, year, imdb_rating
    and score. *)
Theorem returned_record_fields :
  forall db : DB,
    (forall (pid limit : Z) (excl : option (list string)),
        Forall (fun r =>
                  Forall (fun k => has_field r k = true) recommendation_fields)
               (get_recommendations log10 db pid limit excl)) /\
    (forall (pid : Z) (category : string) (limit : Z),
        Forall (fun r =>
                  Forall (fun k => has_field r k = true) recommendation_fields)
               (get_recommendations_by_category log10 db pid category limit)) /\
    (forall (sid : string) (limit : Z),
        Forall (fun r => Forall (fun k => has_field r k = true) similar_fields)
               (get_similar_titles db sid limit)).
Proof.
  intros db.
  assert (Hrec : forall pid limit excl,
             Forall (fun r =>
                       Forall (fun k => has_field r k = true)
                              recommendation_fields)
                    (get_recommendations log10 db pid limit excl)).
  { intros pid limit excl.
    eapply List.Forall_impl; [|apply recommendations_are_records].
    intros r (t & s & ->). apply recommendation_record_fields. }
  split; [exact Hrec|]. split.
  - intros pid category limit. apply List.Forall_forall. intros r Hr.
    unfold get_recommendations_by_category in Hr.
    apply In_slice_to, filter_In in Hr. destruct Hr as [Hr _].
    revert r Hr. apply List.Forall_forall, Hrec.
  - intros sid limit.
    eapply List.Forall_impl; [|apply similar_titles_are_records].
    intros r (t & s & ->). apply similar_record_fields.
Qed.

End RecordFacts.

(** C9, as claimed, fails: the records of [get_similar_titles] carry
    neither type, duration, age_rating nor language, which the
    specification lists without marking them optional. *)
Lemma similar_titles_records_lack_fields :
  ~ Forall (fun r => Forall (fun k => has_field r k = true) mandatory_fields)
           (get_similar_titles db0 "s1" 10).
Proof.
  intros H. apply List.Forall_inv in H.
  apply List.Forall_forall with (x := "type") in H; [|simpl; tauto].
  vm_compute in H. discriminate H.
Qed.

Example recommendation_record_has_no_sub_category :
  Forall (fun r => has_field r "sub_category" = false)
         (get_recommendations log10_stub db0 1 10 None).
Proof. repeat constructor. Qed.

(** ** Scoring model: the language rule *)

(** C5, as claimed, fails: a title whose language is ["EN"] is not given
    7.0, because the code compares with ["en"] exactly. *)
Lemma language_code_en_is_matched_exactly :
  ~ (forall (t : Title) (p : Profile),
       _score_language_match t p
       = language_rule_claimed (language t) (preferred_language p)).
Proof.
  intros H. specialize (H t_anim2 p_adult). vm_compute in H. discriminate H.
Qed.

(** On ASCII text the rule with [str.lower] as it is, is the rule of the
    engine section. *)
Lemma language_match_on_ascii (t : Title) (p : Profile) :
  Str._score_language_match Py.lower t p = _score_language_match t p.
Proof. reflexivity. Qed.

(** C5 (amended): with [lower] standing for [str.lower], whatever it does
    to a text, the language sub-score is 5.0 when the title language is
    ["Unknown"]; otherwise 10.0 when the lowered title language equals
    the lowered preferred language; otherwise 7.0 when the lowered title
    language is ["english"] or the title language is exactly the
    lower-case code ["en"]; otherwise 3.0. *)
Theorem language_score_rule :
  forall (lower : string -> string) (t : Title) (p : Profile),
    (language t = "Unknown" -> Str._score_language_match lower t p = 5%Q) /\
    (language t <> "Unknown" ->
     lower (language t) = lower (preferred_language p) ->
     Str._score_language_match lower t p = 10%Q) /\
    (language t <> "Unknown" ->
     lower (language t) <> lower (preferred_language p) ->
     lower (language t) = "english" \/ language t = "en" ->
     Str._score_language_match lower t p = 7%Q) /\
    (language t <> "Unknown" ->
     lower (language t) <> lower (preferred_language p) ->
     lower (language t) <> "english" ->
     language t <> "en" ->
     Str._score_language_match lower t p = 3%Q).
Proof.
  intros lower t p. unfold Str._score_language_match.
  destruct (String.eqb_spec (language t) "Unknown") as [U|U].
  { repeat split; intros; trivial; contradiction. }
  destruct (String.eqb_spec (lower (language t))
                            (lower (preferred_language p))) as [M|M].
  { repeat split; intros; trivial; contradiction. }
  destruct (String.eqb_spec (lower (language t)) "english") as [E|E];
    destruct (String.eqb_spec (language t) "en") as [C|C]; simpl;
    repeat split; intros; trivial; try contradiction; tauto.
Qed.

Lemma language_score_rule_witness :
  Str._score_language_match Py.lower t_anim3 p_adult = 5%Q /\
  Str._score_language_match Py.lower t_anim p_kid = 10%Q /\
  Str._score_language_match Py.lower t_anim p_adult = 7%Q /\
  Str._score_language_match Py.lower t_anim2 p_adult = 3%Q.
Proof.
  split; [|split; [|split]].
  - destruct (language_score_rule Py.lower t_anim3 p_adult) as (H & _).
    apply H. reflexivity.
  - destruct (language_score_rule Py.lower t_anim p_kid) as (_ & H & _).
    apply H; [discriminate | reflexivity].
  - destruct (language_score_rule Py.lower t_anim p_adult) as (_ & _ & H & _).
    apply H; [discriminate | discriminate | left; reflexivity].
  - destruct (language_score_rule Py.lower t_anim2 p_adult) as (_ & _ & _ & H).
    apply H; discriminate.
Defined.

(** ** Similarity model *)

Lemma similarity_decomposition (t1 t2 : Title) :
  (_calculate_similarity t1 t2
   == 10 + sub_category_points t1 t2 + type_points t1 t2
         + year_points t1 t2 + rating_points t1 t2)%Q.
Proof.
  unfold _calculate_similarity, sub_category_points, type_points,
    year_points, rating_points; cbv zeta.
  destruct (bool_decide _), (String.eqb _ _), (_ <=? 5),
    (Py.truthy_float (imdb_rating t1) && Py.truthy_float (imdb_rating t2))%bool;
    try destruct (Qle_bool _ 1); ring.
Qed.

Lemma sub_category_points_bounds (t1 t2 : Title) :
  (0 <= sub_category_points t1 t2 <= 10)%Q.
Proof.
  unfold sub_category_points. destruct (bool_decide _); split; discriminate.
Qed.

Lemma type_points_bounds (t1 t2 : Title) :
  (0 <= type_points t1 t2 <= 5)%Q.
Proof.
  unfold type_points. destruct (String.eqb _ _); split; discriminate.
Qed.

Lemma year_points_bounds (t1 t2 : Title) :
  (0 <= year_points t1 t2 <= 10)%Q.
Proof.
  unfold year_points; cbv zeta.
  destruct (Z.leb_spec (Z.abs (year t1 - year t2)) 5) as [H|H].
  - split.
    + change 0%Q with (inject_Z 0). rewrite <- Zle_Qle. lia.
    + change 10%Q with (inject_Z 10). rewrite <- Zle_Qle. lia.
  - split; discriminate.
Qed.

Lemma rating_points_bounds (t1 t2 : Title) :
  (0 <= rating_points t1 t2 <= 10)%Q.
Proof.
  unfold rating_points; cbv zeta.
  destruct (_ && _)%bool; [|split; discriminate].
  set (d := Qabs _).
  destruct (Qle_bool d 1) eqn:E; [|split; discriminate].
  apply Qle_bool_iff in E.
  assert (0 <= d)%Q by apply Qabs_nonneg.
  split; lra.
Qed.

(** C10: the similarity of any two titles is 10 for the category, added
    unconditionally, plus four contributions that are never negative and
    are at most 10 (sub-category), 5 (type), 10 (year) and 10 (rating);
    hence it lies between 10 and 45 inclusive. *)
Theorem similarity_between_10_and_45 :
  forall t1 t2 : Title,
    (_calculate_similarity t1 t2
     == 10 + sub_category_points t1 t2 + type_points t1 t2
           + year_points t1 t2 + rating_points t1 t2)%Q /\
    (0 <= sub_category_points t1 t2 <= 10)%Q /\
    (0 <= type_points t1 t2 <= 5)%Q /\
    (0 <= year_points t1 t2 <= 10)%Q /\
    (0 <= rating_points t1 t2 <= 10)%Q /\
    (10 <= _calculate_similarity t1 t2 <= 45)%Q.
Proof.
  intros t1 t2.
  pose proof (similarity_decomposition t1 t2) as D.
  pose proof (sub_category_points_bounds t1 t2) as S.
  pose proof (type_points_bounds t1 t2) as T.
  pose proof (year_points_bounds t1 t2) as Y.
  pose proof (rating_points_bounds t1 t2) as R.
  repeat (split; [assumption|]).
  rewrite D. split; lra.
Qed.

Example similarity_reaches_both_bounds :
  (_calculate_similarity t_anim2 t_noir == 10)%Q /\
  (_calculate_similarity t_anim t_anim == 45)%Q.
Proof. split; reflexivity. Qed.

Lemma truthy_float_nonzero (r : Q) :
  ~ (r == 0)%Q -> Py.truthy_float (Some r) = true.
Proof.
  intros Hnz. simpl. destruct (Qeq_bool r 0) eqn:Z0; [|reflexivity].
  apply Qeq_bool_iff in Z0. contradiction.
Qed.

Lemma rating_points_agree (t1 t2 : Title) :
  rating_nonzero t1 -> rating_nonzero t2 ->
  rating_points t1 t2 = rating_points_claimed t1 t2.
Proof.
  intros H1 H2. unfold rating_points, rating_points_claimed.
  destruct (imdb_rating t1) as [r1|] eqn:E1; [|reflexivity].
  destruct (imdb_rating t2) as [r2|] eqn:E2.
  - rewrite (truthy_float_nonzero r1 (H1 r1 E1)).
    rewrite (truthy_float_nonzero r2 (H2 r2 E2)). reflexivity.
  - simpl Py.truthy_float. now rewrite andb_false_r.
Qed.

(** Where no rating is zero the code computes the similarity the
    specification describes. *)
Lemma similarity_as_claimed_for_nonzero_ratings (t1 t2 : Title) :
  category t1 = category t2 ->
  rating_nonzero t1 -> rating_nonzero t2 ->
  (_calculate_similarity t1 t2 == similarity_claimed t1 t2)%Q.
Proof.
  intros _ H1 H2. rewrite similarity_decomposition.
  unfold similarity_claimed. rewrite <- (rating_points_agree t1 t2 H1 H2).
  reflexivity.
Qed.

(** C6: on two titles that agree on category, sub-category, type and
    year and are rated 0.0 and 0.5, [_calculate_similarity] returns 35,
    where the claimed sum, which counts a rating of 0.0 as a rating,
    is 40: the truthiness test on [imdb_rating] takes 0.0 for absent. *)
Theorem similarity_takes_zero_rating_for_absent :
  category t_zero = category t_half /\
  (_calculate_similarity t_zero t_half == 35)%Q /\
  (similarity_claimed t_zero t_half == 40)%Q.
Proof. repeat split. Qed.

(** ** Scoring model: monotonicity in the rating *)

Lemma round_half_even_mono (x y : Q) :
  (x <= y)%Q -> Py.round_half_even x <= Py.round_half_even y.
Proof.
  intros Hxy. unfold Py.round_half_even; cbv zeta.
  pose proof (Qfloor_resp_le x y Hxy) as Hf.
  pose proof (Qfloor_le x) as Hx1. pose proof (Qlt_floor x) as Hx2.
  pose proof (Qfloor_le y) as Hy1. pose proof (Qlt_floor y) as Hy2.
  rewrite inject_Z_plus in Hx2, Hy2.
  assert (Hcase : Qfloor x = Qfloor y \/ Qfloor x + 1 <= Qfloor y) by lia.
  destruct Hcase as [E|L].
  - rewrite <- E in *.
    destruct (Qcompare_spec (x - inject_Z (Qfloor x)) (1 # 2)) as [Cx|Cx|Cx];
      destruct (Qcompare_spec (y - inject_Z (Qfloor x)) (1 # 2)) as [Cy|Cy|Cy];
      try lia; try (exfalso; lra);
      destruct (Z.even (Qfloor x)); lia.
  - assert (Hlo : Py.round_half_even x <= Qfloor x + 1).
    { unfold Py.round_half_even; cbv zeta.
      destruct (_ ?= _)%Q; try destruct (Z.even _); lia. }
    assert (Hhi : Qfloor y <= Py.round_half_even y).
    { unfold Py.round_half_even; cbv zeta.
      destruct (_ ?= _)%Q; try destruct (Z.even _); lia. }
    unfold Py.round_half_even in Hlo, Hhi. cbv zeta in Hlo, Hhi. lia.
Qed.

Lemma round2_mono (x y : Q) : (x <= y)%Q -> (Py.round2 x <= Py.round2 y)%Q.
Proof.
  intros Hxy. unfold Py.round2.
  assert (H : Py.round_half_even (x * 100) <= Py.round_half_even (y * 100)).
  { apply round_half_even_mono. lra. }
  rewrite Zle_Qle in H. unfold Qdiv.
  apply Qmult_le_compat_r; [exact H | discriminate].
Qed.

Section ScoreFacts.

Variable log10 : Q -> Q.

(** Replacing the rating changes the rating sub-score only. *)
Lemma score_of_rated_title (t : Title) (p : Profile) (r : Q) :
  _calculate_score log10 (set_imdb_rating t (Some r)) p
  = Py.round2
      (0 + _score_preference_match t p * 3 + _score_language_match t p * 2
       + (if has_imdb_data t then r else 5) * (5 # 2)
       + _score_recency t * 1 + _score_popularity log10 t * (3 # 2))%Q.
Proof.
  destruct (has_imdb_data t) eqn:E;
    unfold _calculate_score, _score_imdb_rating, _score_popularity;
    simpl; rewrite E; reflexivity.
Qed.

Lemma set_imdb_rating_same (t : Title) (r : Q) :
  imdb_rating t = Some r -> set_imdb_rating t (Some r) = t.
Proof. destruct t; simpl. now intros ->. Qed.

(** C7: two titles that differ only in their rating, both rated, are
    scored in the order of their ratings: the rounded total of the
    higher-rated title is never below that of the lower-rated one. *)
Theorem score_monotone_in_rating :
  forall (t1 t2 : Title) (p : Profile) (r1 r2 : Q),
    imdb_rating t1 = Some r1 ->
    t2 = set_imdb_rating t1 (Some r2) ->
    (r1 <= r2)%Q ->
    (_calculate_score log10 t1 p <= _calculate_score log10 t2 p)%Q.
Proof.
  intros t1 t2 p r1 r2 H1 -> H.
  rewrite <- (set_imdb_rating_same t1 r1 H1) at 1.
  rewrite !score_of_rated_title.
  apply round2_mono. destruct (has_imdb_data t1); lra.
Qed.

End ScoreFacts.

Lemma score_monotone_in_rating_witness :
  (_calculate_score log10_stub t_anim p_kid
   <= _calculate_score log10_stub (set_imdb_rating t_anim (Some (81 # 10)))
        p_kid)%Q.
Proof.
  apply (score_monotone_in_rating log10_stub t_anim
           (set_imdb_rating t_anim (Some (81 # 10))) p_kid (8 # 1) (81 # 10)).
  - reflexivity.
  - reflexivity.
  - discriminate.
Defined.

Example score_of_end_to_end_title :
  (_calculate_score log10_stub t_anim p_kid == 9087 # 100)%Q /\
  (_calculate_score log10_stub (set_imdb_rating t_anim (Some (62 # 10))) p_kid
   == 8637 # 100)%Q.
Proof. split; reflexivity. Qed.

(** ** More of the scoring and similarity models *)

(** The similarity score does not depend on the order of its two titles. *)
Theorem similarity_symmetric :
  forall t1 t2 : Title,
    _calculate_similarity t1 t2 = _calculate_similarity t2 t1.
Proof.
  intros t1 t2. unfold _calculate_similarity; cbv zeta.
  rewrite (String.eqb_sym (type t1) (type t2)).
  replace (Z.abs (year t1 - year t2)) with (Z.abs (year t2 - year t1)) by lia.
  rewrite (andb_comm (Py.truthy_float (imdb_rating t1))).
  rewrite (Qabs_Qminus (default 0%Q (imdb_rating t1))).
  destruct (decide (sub_category t1 = sub_category t2)) as [E|N].
  - rewrite !bool_decide_eq_true_2 by congruence. reflexivity.
  - rewrite !bool_decide_eq_false_2 by congruence. reflexivity.
Qed.

(** The recency sub-score is one of 2, 4, 6, 8, 10 and never drops when
    the release year grows; a title of the current year or later has 10. *)
Theorem recency_monotone_in_year :
  forall t1 t2 : Title,
    year t1 <= year t2 ->
    (2 <= _score_recency t1)%Q /\
    (_score_recency t1 <= _score_recency t2)%Q /\
    (_score_recency t2 <= 10)%Q /\
    (current_year - 1 <= year t2 -> _score_recency t2 = 10%Q).
Proof.
  intros t1 t2 H. unfold _score_recency; cbv zeta.
  repeat match goal with
         | |- context [?a <=? ?b] => destruct (Z.leb_spec a b)
         end;
    repeat split; try discriminate; try lia; intros; try reflexivity; lia.
Qed.

Lemma recency_monotone_in_year_witness :
  (2 <= _score_recency t_noir)%Q /\
  (_score_recency t_noir <= _score_recency t_anim)%Q /\
  (_score_recency t_anim <= 10)%Q /\
  (current_year - 1 <= year t_anim -> _score_recency t_anim = 10%Q).
Proof.
  apply (recency_monotone_in_year t_noir t_anim). simpl. lia.
Defined.

Lemma py_max_bounds (a b : Q) : (a <= Py.max a b)%Q /\ (b <= Py.max a b)%Q.
Proof.
  unfold Py.max. destruct (Qle_bool b a) eqn:E.
  - apply Qle_bool_iff in E. split; [apply Qle_refl | exact E].
  - split; [|apply Qle_refl].
    destruct (Qlt_le_dec a b) as [L|L]; [now apply Qlt_le_weak|].
    apply Qle_bool_iff in L. congruence.
Qed.

Lemma py_min_bounds (a b : Q) : (Py.min a b <= a)%Q /\ (Py.min a b <= b)%Q.
Proof.
  unfold Py.min. destruct (Qle_bool a b) eqn:E.
  - apply Qle_bool_iff in E. split; [apply Qle_refl | exact E].
  - split; [|apply Qle_refl].
    destruct (Qlt_le_dec b a) as [L|L]; [now apply Qlt_le_weak|].
    apply Qle_bool_iff in L. congruence.
Qed.

Lemma py_min_lower (c a b : Q) :
  (c <= a)%Q -> (c <= b)%Q -> (c <= Py.min a b)%Q.
Proof. intros Ha Hb. unfold Py.min. now destruct (Qle_bool a b). Qed.

Section MoreScoreFacts.

Variable log10 : Q -> Q.

(** Whatever [math.log10] returns, the popularity sub-score lies between
    0 and 10; it is 0 for a title with IMDB data and fewer than 10 votes
    and 5 for a title without vote data. *)
Theorem popularity_between_0_and_10 :
  forall t : Title,
    (0 <= _score_popularity log10 t <= 10)%Q /\
    (forall v, has_imdb_data t = true -> imdb_votes t = Some v ->
               (v < 10)%Q -> _score_popularity log10 t = 0%Q) /\
    (has_imdb_data t = false \/ imdb_votes t = None ->
     _score_popularity log10 t = 5%Q).
Proof.
  intros t. unfold _score_popularity; cbv zeta.
  destruct (has_imdb_data t), (imdb_votes t) as [v|].
  - split; [|split].
    + destruct (Qle_bool 10 v); simpl; [|split; discriminate].
      split.
      * apply py_min_lower; [discriminate | apply py_max_bounds].
      * apply py_min_bounds.
    + intros v' _ E Hv. injection E as <-.
      destruct (Qle_bool 10 v) eqn:L; [|reflexivity].
      apply Qle_bool_iff in L. exfalso. lra.
    + intros [H|H]; discriminate.
  - repeat split; try discriminate.
  - repeat split; try discriminate.
  - repeat split; try discriminate.
Qed.

End MoreScoreFacts.

Lemma popularity_between_0_and_10_witness :
  (0 <= _score_popularity log10_stub t_noir <= 10)%Q /\
  _score_popularity log10_stub t_noir = 0%Q /\
  _score_popularity log10_stub t_anim2 = 5%Q.
Proof.
  split; [|split].
  - apply (popularity_between_0_and_10 log10_stub t_noir).
  - destruct (popularity_between_0_and_10 log10_stub t_noir) as (_ & H & _).
    apply (H (5 # 1)); reflexivity.
  - destruct (popularity_between_0_and_10 log10_stub t_anim2) as (_ & _ & H).
    apply H. left. reflexivity.
Defined.

Lemma preference_match_bounds (t : Title) (p : Profile) :
  (3 <= _score_preference_match t p <= 10)%Q.
Proof.
  unfold _score_preference_match; cbv zeta.
  repeat match goal with
         | |- context [if ?c then _ else _] => destruct c
         end; split; discriminate.
Qed.

Lemma language_match_bounds (t : Title) (p : Profile) :
  (3 <= _score_language_match t p <= 10)%Q.
Proof.
  unfold _score_language_match.
  repeat match goal with
         | |- context [if ?c then _ else _] => destruct c
         end; split; discriminate.
Qed.

Lemma imdb_rating_bounds (t : Title) :
  rating_on_scale t -> (0 <= _score_imdb_rating t <= 10)%Q.
Proof.
  intros H. unfold _score_imdb_rating.
  destruct (has_imdb_data t); [|split; discriminate].
  destruct (imdb_rating t) as [r|] eqn:E; [now apply H | split; discriminate].
Qed.

Lemma recency_bounds (t : Title) : (2 <= _score_recency t <= 10)%Q.
Proof.
  unfold _score_recency; cbv zeta.
  repeat match goal with
         | |- context [if ?c then _ else _] => destruct c
         end; split; discriminate.
Qed.

Section ScoreRange.

Variable log10 : Q -> Q.

(** For a title whose rating is absent or on the scale 0 to 10, the
    total score lies between 17 and 100, whatever the profile and
    whatever [math.log10] returns: the weights sum to 10 and the five
    sub-scores are at least 3, 3, 0, 2 and 0 and at most 10. *)
Theorem score_between_17_and_100 :
  forall (t : Title) (p : Profile),
    rating_on_scale t ->
    (17 <= _calculate_score log10 t p <= 100)%Q.
Proof.
  intros t p Hr. unfold _calculate_score; cbv zeta.
  pose proof (preference_match_bounds t p) as Hp.
  pose proof (language_match_bounds t p) as Hl.
  pose proof (imdb_rating_bounds t Hr) as Hi.
  pose proof (recency_bounds t) as Hc.
  pose proof (popularity_between_0_and_10 log10 t) as [Hv _].
  assert (W : preference_match weights = 3%Q /\ language_match weights = 2%Q /\
              w_imdb_rating weights = (5 # 2)%Q /\ recency weights = 1%Q /\
              popularity weights = (3 # 2)%Q) by (repeat split).
  destruct W as (-> & -> & -> & -> & ->).
  split.
  - apply Qle_trans with (Py.round2 17); [vm_compute; discriminate|].
    apply round2_mono. lra.
  - apply Qle_trans with (Py.round2 100); [|vm_compute; discriminate].
    apply round2_mono. lra.
Qed.

(** A title whose [has_imdb_data] flag is false is scored as if it had
    neither rating nor votes, whatever its two IMDB columns hold. *)
Theorem score_ignores_imdb_columns_without_flag :
  forall (t : Title) (p : Profile) (r v : option Q),
    has_imdb_data t = false ->
    _calculate_score log10 (set_imdb_columns t r v) p
    = _calculate_score log10 (set_imdb_columns t None None) p.
Proof.
  intros t p r v H.
  unfold _calculate_score, _score_imdb_rating, _score_popularity; simpl.
  rewrite H. reflexivity.
Qed.

End ScoreRange.

Lemma score_between_17_and_100_witness :
  (17 <= _calculate_score log10_stub t_anim p_kid <= 100)%Q.
Proof.
  apply (score_between_17_and_100 log10_stub t_anim p_kid).
  intros r E. injection E as <-. split; discriminate.
Defined.

Lemma score_ignores_imdb_columns_without_flag_witness :
  _calculate_score log10_stub
    (set_imdb_columns t_anim2 (Some (9 # 1)) (Some (5000 # 1))) p_kid
  = _calculate_score log10_stub (set_imdb_columns t_anim2 None None) p_kid.
Proof.
  apply (score_ignores_imdb_columns_without_flag log10_stub t_anim2 p_kid).
  reflexivity.
Defined.

(** ** More of the preference rule *)

Lemma prefix_refl (s : string) : String.prefix s s = true.
Proof.
  induction s as [|c s IH]; simpl; [reflexivity|].
  destruct (ascii_dec c c); [exact IH | congruence].
Qed.

Lemma contains_refl (s : string) : Py.contains s s = true.
Proof.
  destruct s as [|c s]; [reflexivity|].
  cbn [Py.contains]. now rewrite prefix_refl.
Qed.

Lemma contains_empty (s : string) : Py.contains "" s = true.
Proof. destruct s; reflexivity. Qed.

Lemma preference_partial_match (t : Title) (p : Profile) (s pref : string) :
  preferences p = Some s -> s <> "" ->
  In pref (preference_tags s) ->
  Py.contains (Py.lower pref) (Py.lower (category t)) = true \/
  Py.contains (Py.lower (category t)) (Py.lower pref) = true ->
  (6 <= _score_preference_match t p)%Q.
Proof.
  intros E Hs Hin Hc. unfold _score_preference_match; cbv zeta.
  rewrite E. simpl Py.truthy_str.
  apply String.eqb_neq in Hs. rewrite Hs. simpl negb. cbv iota.
  destruct (Py.str_in (category t) _); [discriminate|].
  destruct (_ && _)%bool; [discriminate|].
  match goal with |- context [existsb ?f ?l] => destruct (existsb f l) eqn:Ex end;
    [discriminate|].
  exfalso. assert (Hex : existsb
    (fun pref0 => (Py.contains (Py.lower pref0) (Py.lower (category t)) ||
                   Py.contains (Py.lower (category t)) (Py.lower pref0))%bool)
    (preference_tags s) = true).
  { apply existsb_exists. exists pref. split; [exact Hin|].
    apply orb_true_iff. exact Hc. }
  unfold preference_tags in Hex. simpl in Ex. congruence.
Qed.

(** An empty tag among a profile's preferences (a trailing or doubled
    comma, or a blank preference string) matches every title: the
    preference sub-score is then at least 6, never the no-match 3. *)
Theorem empty_preference_tag_matches_everything :
  forall (t : Title) (p : Profile) (s : string),
    preferences p = Some s -> s <> "" ->
    In "" (preference_tags s) ->
    (6 <= _score_preference_match t p)%Q.
Proof.
  intros t p s E Hs Hin.
  apply (preference_partial_match t p s "" E Hs Hin).
  left. apply contains_empty.
Qed.

Lemma empty_preference_tag_matches_everything_witness :
  (6 <= _score_preference_match t_noir
          (mkProfile 7 1 "Comma" false "25-34" 4 "Zulu" (Some "Kids,") 2))%Q.
Proof.
  apply (empty_preference_tag_matches_everything t_noir
           (mkProfile 7 1 "Comma" false "25-34" 4 "Zulu" (Some "Kids,") 2)
           "Kids,").
  - reflexivity.
  - discriminate.
  - simpl. tauto.
Defined.

(** On ASCII text the rule with [str.lower] and [str.strip] as they are,
    is the rule of the engine section. *)
Lemma preference_match_on_ascii (t : Title) (p : Profile) :
  Str._score_preference_match Py.lower Py.strip t p
  = _score_preference_match t p.
Proof. reflexivity. Qed.

Section TextFacts.

Variable lower : string -> string.
Variable strip : string -> string.

Lemma str_preference_partial_match (t : Title) (p : Profile)
    (s pref : string) :
  preferences p = Some s -> s <> "" ->
  In pref (Str.preference_tags strip s) ->
  Py.contains (lower pref) (lower (category t)) = true \/
  Py.contains (lower (category t)) (lower pref) = true ->
  (6 <= Str._score_preference_match lower strip t p)%Q.
Proof.
  intros E Hs Hin Hc. unfold Str._score_preference_match; cbv zeta.
  rewrite E. simpl Py.truthy_str.
  apply String.eqb_neq in Hs. rewrite Hs. simpl negb. cbv iota.
  simpl default.
  destruct (Py.str_in (category t) _); [discriminate|].
  destruct (_ && _)%bool; [discriminate|].
  match goal with |- context [existsb ?f ?l] => destruct (existsb f l) eqn:Ex end;
    [discriminate|].
  exfalso. apply not_true_iff_false in Ex. apply Ex.
  apply existsb_exists. exists pref. split; [exact Hin|].
  apply orb_true_iff. exact Hc.
Qed.

(** With [lower] and [strip] standing for [str.lower] and [str.strip],
    whatever they do to a text: a preference tag whose lowered text is
    the lowered category of the title gives a preference sub-score of at
    least 6; a tag that is the category itself gives 10; and the
    sub-score is 10 only when some tag is the category itself. *)
Theorem preference_match_ignoring_case :
  forall (t : Title) (p : Profile) (s pref : string),
    preferences p = Some s -> s <> "" ->
    In pref (Str.preference_tags strip s) ->
    lower pref = lower (category t) ->
    (6 <= Str._score_preference_match lower strip t p)%Q /\
    (pref = category t ->
     Str._score_preference_match lower strip t p = 10%Q) /\
    (Str._score_preference_match lower strip t p = 10%Q ->
     In (category t) (Str.preference_tags strip s)).
Proof.
  intros t p s pref E Hs Hin Hl. split; [|split].
  - apply (str_preference_partial_match t p s pref E Hs Hin).
    left. rewrite Hl. apply contains_refl.
  - intros ->. unfold Str._score_preference_match; cbv zeta.
    rewrite E. simpl Py.truthy_str.
    apply String.eqb_neq in Hs. rewrite Hs. simpl negb. cbv iota.
    simpl default. apply str_in_In in Hin. now rewrite Hin.
  - unfold Str._score_preference_match; cbv zeta.
    rewrite E. simpl Py.truthy_str.
    apply String.eqb_neq in Hs. rewrite Hs. simpl negb. cbv iota.
    simpl default.
    destruct (Py.str_in (category t) _) eqn:Hc.
    { intros _. now apply str_in_In in Hc. }
    destruct (_ && _)%bool; [discriminate|].
    destruct (existsb _ _); discriminate.
Qed.

End TextFacts.

Lemma preference_match_ignoring_case_witness :
  (6 <= Str._score_preference_match Py.lower Py.strip t_anim
          (mkProfile 8 1 "Caps" false "25-34" 4 "Zulu"
                     (Some "drama, ANIMATION") 2))%Q /\
  ("ANIMATION" = category t_anim ->
   Str._score_preference_match Py.lower Py.strip t_anim
     (mkProfile 8 1 "Caps" false "25-34" 4 "Zulu" (Some "drama, ANIMATION") 2)
   = 10%Q) /\
  (Str._score_preference_match Py.lower Py.strip t_anim
     (mkProfile 8 1 "Caps" false "25-34" 4 "Zulu" (Some "drama, ANIMATION") 2)
   = 10%Q ->
   In (category t_anim) (Str.preference_tags Py.strip "drama, ANIMATION")).
Proof.
  apply (preference_match_ignoring_case Py.lower Py.strip t_anim
           (mkProfile 8 1 "Caps" false "25-34" 4 "Zulu"
                      (Some "drama, ANIMATION") 2)
           "drama, ANIMATION" "ANIMATION").
  - reflexivity.
  - discriminate.
  - simpl. tauto.
  - reflexivity.
Defined.

(** ** More of the ranking engine *)

Section ListFacts.

Context {A B : Type}.

Lemma NoDup_map_filter (f : A -> B) (keep : A -> bool) (l : list A) :
  List.NoDup (map f l) -> List.NoDup (map f (List.filter keep l)).
Proof.
  induction l as [|x l IH]; simpl; intros H; [constructor|].
  inversion H as [|? ? Hn Hd]; subst.
  destruct (keep x); simpl; [|now apply IH].
  constructor; [|now apply IH].
  intros Hin. apply Hn. apply in_map_iff in Hin.
  destruct Hin as (y & E & Hy). apply filter_In in Hy.
  apply in_map_iff. exists y. tauto.
Qed.

Lemma NoDup_firstn (k : nat) (l : list B) :
  List.NoDup l -> List.NoDup (firstn k l).
Proof.
  revert l. induction k as [|k IH]; intros [|x l] H; simpl; try constructor.
  - inversion H as [|? ? Hn Hd]; subst.
    intros Hin. apply Hn. eapply In_firstn. exact Hin.
  - inversion H; subst. now apply IH.
Qed.

Lemma map_firstn (f : A -> B) (k : nat) (l : list A) :
  map f (firstn k l) = firstn k (map f l).
Proof.
  revert l. induction k as [|k IH]; intros [|x l]; simpl; trivial.
  now rewrite IH.
Qed.

End ListFacts.

Lemma strongly_sorted_filter {A} (R : A -> A -> Prop) (keep : A -> bool)
    (l : list A) :
  StronglySorted R l -> StronglySorted R (List.filter keep l).
Proof.
  induction 1 as [|x l Hs IH Hall]; simpl; [constructor|].
  destruct (keep x); [|exact IH]. constructor; [exact IH|].
  rewrite List.Forall_forall in *. intros y Hy.
  apply filter_In in Hy. now apply Hall.
Qed.

Lemma slice_to_strongly_sorted {A} (key : A -> Q) (l : list A) (n : Z) :
  StronglySorted (key_ge key) l ->
  StronglySorted (key_ge key) (Py.slice_to l n).
Proof.
  intros H. destruct (slice_to_prefix l n) as [k ->].
  now apply firstn_strongly_sorted.
Qed.

Section MoreRankingFacts.

Variable log10 : Q -> Q.

Lemma recommendations_strongly_sorted (db : DB) (pid limit : Z)
    (excl : option (list string)) :
  StronglySorted (key_ge score_of)
                 (get_recommendations log10 db pid limit excl).
Proof.
  unfold get_recommendations.
  destruct (get_profile_by_id db pid) as [profile|]; [|constructor].
  apply slice_to_strongly_sorted, sort_desc_ranking.
Qed.

(** For a stored profile and a non-negative [limit],
    [get_recommendations] returns as many records as there are candidates
    left after the exclusion, up to [limit]: never more than asked for,
    and fewer only when the candidates run out. *)
Theorem recommendations_length :
  forall (db : DB) (pid limit : Z) (excl : option (list string))
         (profile : Profile),
    get_profile_by_id db pid = Some profile ->
    0 <= limit ->
    length (get_recommendations log10 db pid limit excl)
    = Nat.min (Z.to_nat limit)
        (length (exclude_watched excl (_get_candidate_titles db profile))).
Proof.
  intros db pid limit excl profile Hp Hl.
  unfold get_recommendations. rewrite Hp, slice_to_nonneg by exact Hl.
  rewrite length_firstn. f_equal.
  rewrite (Permutation_length (sort_desc_perm score_of _)).
  unfold scored_titles. apply length_map.
Qed.

(** When the show ids of the stored titles are pairwise distinct, so are
    the show ids of the records [get_recommendations] returns: no title
    is recommended twice. *)
Theorem recommendations_have_distinct_show_ids :
  forall (db : DB) (pid limit : Z) (excl : option (list string)),
    List.NoDup (map show_id (titles db)) ->
    List.NoDup (map (fun r : gmap string pyval => r !! "show_id")
                    (get_recommendations log10 db pid limit excl)).
Proof.
  intros db pid limit excl Hnd. unfold get_recommendations.
  destruct (get_profile_by_id db pid) as [profile|]; [|constructor].
  destruct (slice_to_prefix
              (Py.sort_desc score_of (scored_titles log10 db profile excl))
              limit) as [k ->].
  rewrite map_firstn. apply NoDup_firstn.
  eapply Permutation_NoDup.
  { apply Permutation_sym, Permutation_map, sort_desc_perm. }
  unfold scored_titles. rewrite map_map.
  assert (Hc : List.NoDup
                 (map show_id
                      (exclude_watched excl (_get_candidate_titles db profile)))).
  { unfold exclude_watched, _get_candidate_titles.
    destruct excl as [[|id ids]|], (kids_profile profile);
      repeat apply NoDup_map_filter; exact Hnd. }
  revert Hc. generalize (exclude_watched excl (_get_candidate_titles db profile)).
  intros l Hc. induction l as [|t l IH]; simpl; [constructor|].
  inversion Hc as [|? ? Hn Hd]; subst. constructor; [|now apply IH].
  intros Hin. apply Hn. apply in_map_iff in Hin.
  destruct Hin as (t' & E & Ht'). apply in_map_iff. exists t'.
  split; [|exact Ht'].
  change (Some (VStr (show_id t')) = Some (VStr (show_id t))) in E.
  congruence.
Qed.

(** Every record returned by [get_similar_titles] is the record of a
    stored title that has the reference title's category and another
    show id: the reference title itself is never among its own similar
    titles. *)
Theorem similar_titles_share_category :
  forall (db : DB) (sid : string) (limit : Z) (title : Title)
         (r : gmap string pyval),
    get_title_by_show_id db sid = Some title ->
    In r (get_similar_titles db sid limit) ->
    exists t : Title,
      In t (titles db) /\
      r = similar_record t (_calculate_similarity title t) /\
      category t = category title /\
      show_id t <> sid /\
      r !! "show_id" <> Some (VStr sid).
Proof.
  intros db sid limit title r Ht Hr. unfold get_similar_titles in Hr.
  rewrite Ht in Hr. apply In_slice_to, In_sort_desc in Hr.
  unfold scored_similar in Hr. apply in_map_iff in Hr.
  destruct Hr as (t & <- & Hin). unfold similar_candidates in Hin.
  apply filter_In in Hin. destruct Hin as [Hin Hk].
  apply andb_true_iff in Hk. destruct Hk as [Hc Hs].
  apply String.eqb_eq in Hc. apply negb_true_iff, String.eqb_neq in Hs.
  exists t. repeat split; trivial.
  change (Some (VStr (show_id t)) <> Some (VStr sid)). congruence.
Qed.

(** Every record returned by [get_recommendations_by_category] carries
    the requested category and is one of the 100 best recommendations of
    the profile; the records are in descending score order, and for a
    non-negative [limit] there are at most [limit] of them.  A title of
    the category ranked below the 100 best is therefore never returned. *)
Theorem category_recommendations_from_top_100 :
  forall (db : DB) (pid : Z) (category : string) (limit : Z),
    Forall (fun r : gmap string pyval =>
              r !! "category" = Some (VStr category) /\
              In r (get_recommendations log10 db pid 100 None))
           (get_recommendations_by_category log10 db pid category limit) /\
    StronglySorted (key_ge score_of)
      (get_recommendations_by_category log10 db pid category limit) /\
    (0 <= limit ->
     (length (get_recommendations_by_category log10 db pid category limit)
      <= Z.to_nat limit)%nat).
Proof.
  intros db pid category limit. unfold get_recommendations_by_category.
  split; [|split].
  - apply List.Forall_forall. intros r Hr.
    apply In_slice_to, filter_In in Hr. destruct Hr as [Hr Hc].
    split; [|exact Hr]. unfold category_is in Hc.
    destruct (r !! "category") as [[| | |c|]|]; try discriminate.
    apply String.eqb_eq in Hc. now subst.
  - apply slice_to_strongly_sorted, strongly_sorted_filter,
      recommendations_strongly_sorted.
  - intros Hl. rewrite slice_to_nonneg by exact Hl. apply firstn_le_length.
Qed.

End MoreRankingFacts.

Lemma recommendations_length_witness :
  length (get_recommendations log10_stub db0 1 2 None)
  = Nat.min (Z.to_nat 2)
      (length (exclude_watched None (_get_candidate_titles db0 p_kid))).
Proof.
  apply (recommendations_length log10_stub db0 1 2 None p_kid);
    [reflexivity | lia].
Defined.

Lemma recommendations_have_distinct_show_ids_witness :
  List.NoDup (map (fun r : gmap string pyval => r !! "show_id")
                  (get_recommendations log10_stub db0 2 10 None)).
Proof.
  apply (recommendations_have_distinct_show_ids log10_stub db0 2 10 None).
  simpl. repeat constructor; simpl; intuition discriminate.
Defined.

Lemma similar_titles_share_category_witness :
  exists t : Title,
    In t (titles db0) /\
    similar_record t_anim2 28 = similar_record t (_calculate_similarity t_anim t) /\
    category t = category t_anim /\
    show_id t <> "s1" /\
    similar_record t_anim2 28 !! "show_id" <> Some (VStr "s1").
Proof.
  apply (similar_titles_share_category db0 "s1" 10 t_anim).
  - reflexivity.
  - vm_compute. left. reflexivity.
Defined.

Lemma category_recommendations_from_top_100_witness :
  (length (get_recommendations_by_category log10_stub db0 2 "Animation" 1)
   <= Z.to_nat 1)%nat.
Proof.
  apply (category_recommendations_from_top_100 log10_stub db0 2 "Animation" 1).
  lia.
Defined.

(** ** The rankings over the store: what is returned, what is raised *)

Section StoreRankingFacts.

Variable all_rows : (Title -> bool) -> list Title -> list Title.
Variable calculate_score : Title -> Profile -> Q.
Variable calculate_similarity : Title -> Title -> Q.

Lemma sql_recommendations_returned (db : DB) (pid limit : Z)
    (excl : option (list string)) (recs : list (gmap string pyval)) :
  Sql.get_recommendations all_rows calculate_score db pid limit excl
  = Sql.Returned recs ->
  Sql.fits_int64 pid = true /\
  ((get_profile_by_id db pid = None /\ recs = []) \/
   exists profile,
     get_profile_by_id db pid = Some profile /\
     recs = Py.slice_to
              (Py.sort_desc score_of
                 (Sql.scored_titles all_rows calculate_score db profile excl))
              limit).
Proof.
  unfold Sql.get_recommendations, Sql.get_profile_by_id.
  destruct (Sql.fits_int64 pid); [|discriminate].
  destruct (get_profile_by_id db pid) as [profile|];
    intros H; injection H as <-; (split; [reflexivity|]).
  - right. exists profile. split; reflexivity.
  - left. split; reflexivity.
Qed.

Lemma sql_recommendations_total (db : DB) (pid limit : Z)
    (excl : option (list string)) :
  Sql.fits_int64 pid = true ->
  exists recs,
    Sql.get_recommendations all_rows calculate_score db pid limit excl
    = Sql.Returned recs.
Proof.
  intros H. unfold Sql.get_recommendations.
  rewrite sql_profile_lookup by exact H.
  destruct (get_profile_by_id db pid); eexists; reflexivity.
Qed.

Lemma sql_recommendations_raised (db : DB) (pid limit : Z)
    (excl : option (list string)) :
  Sql.fits_int64 pid = false ->
  Sql.get_recommendations all_rows calculate_score db pid limit excl
  = Sql.Raised Sql.OverflowError.
Proof.
  intros H. unfold Sql.get_recommendations.
  now rewrite sql_profile_lookup_overflow.
Qed.

Lemma sql_recommendations_in (db : DB) (pid limit : Z)
    (excl : option (list string)) (recs : list (gmap string pyval))
    (r : gmap string pyval) :
  Sql.get_recommendations all_rows calculate_score db pid limit excl
  = Sql.Returned recs ->
  In r recs ->
  exists profile t,
    get_profile_by_id db pid = Some profile /\
    In t (Sql._get_candidate_titles all_rows db profile) /\
    (forall ids, excl = Some ids -> ~ In (show_id t) ids) /\
    r = recommendation_record t (calculate_score t profile).
Proof.
  intros H Hr. apply sql_recommendations_returned in H.
  destruct H as [_ [[_ ->] | (profile & Hp & ->)]]; [destruct Hr|].
  apply In_slice_to, In_sort_desc in Hr.
  unfold Sql.scored_titles in Hr. apply in_map_iff in Hr.
  destruct Hr as (t & <- & Ht). apply exclude_watched_spec in Ht.
  destruct Ht as [Ht Hex].
  exists profile, t. split; [exact Hp|]. split; [exact Ht|].
  split; [exact Hex | reflexivity].
Qed.

Lemma sql_recommendations_are_records (db : DB) (pid limit : Z)
    (excl : option (list string)) (recs : list (gmap string pyval)) :
  Sql.get_recommendations all_rows calculate_score db pid limit excl
  = Sql.Returned recs ->
  Forall (fun r => exists t s, r = recommendation_record t s) recs.
Proof.
  intros H. apply List.Forall_forall. intros r Hr.
  destruct (sql_recommendations_in _ _ _ _ _ _ H Hr) as (p & t & _ & _ & _ & ->).
  exists t, (calculate_score t p). reflexivity.
Qed.

Lemma sql_recommendations_length_le (db : DB) (pid limit : Z)
    (excl : option (list string)) (recs : list (gmap string pyval)) :
  Sql.get_recommendations all_rows calculate_score db pid limit excl
  = Sql.Returned recs ->
  0 <= limit -> (length recs <= Z.to_nat limit)%nat.
Proof.
  intros H Hl. apply sql_recommendations_returned in H.
  destruct H as [_ [[_ ->] | (profile & _ & ->)]]; [simpl; lia|].
  rewrite slice_to_nonneg by exact Hl. apply firstn_le_length.
Qed.

Lemma sql_category_returned (db : DB) (pid : Z) (category : string)
    (limit : Z) (recs : list (gmap string pyval)) :
  Sql.get_recommendations_by_category all_rows calculate_score db pid
    category limit = Sql.Returned recs ->
  exists all_recs,
    Sql.get_recommendations all_rows calculate_score db pid 100 None
    = Sql.Returned all_recs /\
    recs = Py.slice_to (List.filter (category_is category) all_recs) limit.
Proof.
  unfold Sql.get_recommendations_by_category.
  destruct (Sql.get_recommendations _ _ _ _ _ _) as [all_recs|e];
    [|discriminate].
  intros H. injection H as <-. exists all_recs. split; reflexivity.
Qed.

Lemma sql_category_total (db : DB) (pid : Z) (category : string) (limit : Z) :
  Sql.fits_int64 pid = true ->
  exists recs,
    Sql.get_recommendations_by_category all_rows calculate_score db pid
      category limit = Sql.Returned recs.
Proof.
  intros H. unfold Sql.get_recommendations_by_category.
  destruct (sql_recommendations_total db pid 100 None H) as [all_recs ->].
  eexists. reflexivity.
Qed.

Lemma sql_category_raised (db : DB) (pid : Z) (category : string) (limit : Z) :
  Sql.fits_int64 pid = false ->
  Sql.get_recommendations_by_category all_rows calculate_score db pid
    category limit = Sql.Raised Sql.OverflowError.
Proof.
  intros H. unfold Sql.get_recommendations_by_category.
  now rewrite sql_recommendations_raised.
Qed.

Lemma sql_category_are_records (db : DB) (pid : Z) (category : string)
    (limit : Z) (recs : list (gmap string pyval)) :
  Sql.get_recommendations_by_category all_rows calculate_score db pid
    category limit = Sql.Returned recs ->
  Forall (fun r => exists t s, r = recommendation_record t s) recs.
Proof.
  intros H. apply sql_category_returned in H.
  destruct H as (all_recs & Hall & ->).
  apply sql_recommendations_are_records in Hall.
  apply List.Forall_forall. intros r Hr.
  apply In_slice_to, filter_In in Hr. destruct Hr as [Hr _].
  revert r Hr. now apply List.Forall_forall.
Qed.

Lemma sql_similar_titles_returned (db : DB) (sid : string) (limit : Z) :
  exists recs,
    Sql.get_similar_titles all_rows calculate_similarity db sid limit
    = Sql.Returned recs /\
    Forall (fun r => exists t s, r = similar_record t s) recs /\
    (0 <= limit -> (length recs <= Z.to_nat limit)%nat).
Proof.
  unfold Sql.get_similar_titles.
  destruct (get_title_by_show_id db sid) as [title|].
  - eexists. split; [reflexivity|]. split.
    + apply List.Forall_forall. intros r Hr.
      apply In_slice_to, In_sort_desc in Hr.
      unfold Sql.scored_similar in Hr. apply in_map_iff in Hr.
      destruct Hr as (t & <- & _). eauto.
    + intros Hl. rewrite slice_to_nonneg by exact Hl. apply firstn_le_length.
  - exists []. split; [reflexivity|]. split; [constructor | simpl; lia].
Qed.

(** For a profile id that no stored profile carries,
    [get_recommendations_by_category] returns the empty list when the id
    fits the store's 64-bit integer, and raises the [OverflowError] of
    the lookup when it does not. *)
Theorem category_recommendations_unknown_profile :
  forall (db : DB) (pid : Z) (category : string) (limit : Z),
    (forall p, In p (profiles db) -> profile_id p <> pid) ->
    (Sql.fits_int64 pid = true ->
     Sql.get_recommendations_by_category all_rows calculate_score db pid
       category limit = Sql.Returned []) /\
    (Sql.fits_int64 pid = false ->
     Sql.get_recommendations_by_category all_rows calculate_score db pid
       category limit = Sql.Raised Sql.OverflowError).
Proof.
  intros db pid category limit H. split.
  - intros Hfit.
    unfold Sql.get_recommendations_by_category, Sql.get_recommendations.
    rewrite sql_profile_lookup by exact Hfit.
    rewrite get_profile_by_id_absent by exact H. simpl.
    f_equal. unfold Py.slice_to. destruct (0 <=? limit); apply firstn_nil.
  - apply sql_category_raised.
Qed.

End StoreRankingFacts.

Lemma category_recommendations_unknown_profile_witness :
  Sql.get_recommendations_by_category (@List.filter Title)
    (_calculate_score log10_stub) db0 99 "Drama" 10 = Sql.Returned [] /\
  Sql.get_recommendations_by_category (@List.filter Title)
    (_calculate_score log10_stub) db0 (2 ^ 63) "Drama" 10
  = Sql.Raised Sql.OverflowError.
Proof.
  split.
  - apply (category_recommendations_unknown_profile (@List.filter Title)
             (_calculate_score log10_stub) db0 99 "Drama" 10); [|reflexivity].
    intros p Hp. simpl in Hp. destruct Hp as [<-|[<-|[]]]; discriminate.
  - apply (category_recommendations_unknown_profile (@List.filter Title)
             (_calculate_score log10_stub) db0 (2 ^ 63) "Drama" 10);
      [|reflexivity].
    intros p Hp. simpl in Hp. destruct Hp as [<-|[<-|[]]]; discriminate.
Defined.

(** ** The handlers over the engine *)

Lemma format_all_forall2 (fields : list (string * App.access))
    (recs : list (gmap string pyval))
    (R : gmap string pyval -> gmap string pyval -> Prop) :
  Forall (fun rec => exists d, App.format_record fields rec = inr d /\ R rec d)
         recs ->
  exists data,
    App.format_all fields recs = inr data /\ Forall2 R recs data.
Proof.
  induction 1 as [|rec recs (d & E & Hd) _ (data & Ed & Hdata)]; simpl.
  - exists []. split; [reflexivity | constructor].
  - rewrite E, Ed. exists (d :: data). split; [reflexivity|].
    now constructor.
Qed.

Lemma format_recommendation_record (t : Title) (sc : Q) :
  exists d,
    App.format_record App.recommendation_fields (recommendation_record t sc)
    = inr d /\
    recommendation_copy (recommendation_record t sc) d.
Proof. eexists. split; [reflexivity|]. repeat split. Qed.

Lemma format_category_record (t : Title) (sc : Q) :
  exists d,
    App.format_record App.category_fields (recommendation_record t sc) = inr d /\
    category_copy (recommendation_record t sc) d.
Proof. eexists. split; [reflexivity|]. repeat split. Qed.

Lemma format_similar_record (t : Title) (sc : Q) :
  exists d,
    App.format_record App.similar_fields (similar_record t sc) = inr d /\
    similar_copy (similar_record t sc) d.
Proof. eexists. split; [reflexivity|]. repeat split. Qed.

Lemma respond_returned (echo : list (string * pyval))
    (fields : list (string * App.access)) (recs : list (gmap string pyval))
    (R : gmap string pyval -> gmap string pyval -> Prop) :
  Forall (fun rec => exists d, App.format_record fields rec = inr d /\ R rec d)
         recs ->
  exists data,
    App.respond echo fields (Sql.Returned recs)
    = App.Success echo data (Z.of_nat (length data)) /\
    Forall2 R recs data.
Proof.
  intros H. destruct (format_all_forall2 fields recs R H) as (data & E & H2).
  exists data. unfold App.respond. rewrite E. split; [reflexivity | exact H2].
Qed.

Lemma respond_success (echo echo' : list (string * pyval))
    (fields : list (string * App.access))
    (called : Sql.outcome (list (gmap string pyval)))
    (data : list (gmap string pyval)) (count : Z) :
  App.respond echo fields called = App.Success echo' data count ->
  exists recs,
    called = Sql.Returned recs /\ App.format_all fields recs = inr data /\
    echo' = echo /\ count = Z.of_nat (length data).
Proof.
  unfold App.respond. destruct called as [recs|e]; [|discriminate].
  destruct (App.format_all fields recs) as [k|data'] eqn:E; [discriminate|].
  intros H. injection H as <- <- <-. exists recs. repeat split. exact E.
Qed.

Lemma slice_to_length_le {A} (l : list A) (n : Z) :
  0 <= n -> (length (Py.slice_to l n) <= Z.to_nat n)%nat.
Proof. intros H. rewrite slice_to_nonneg by exact H. apply firstn_le_length. Qed.

Lemma Forall2_In_r {A B} (R : A -> B -> Prop) (l : list A) (l' : list B)
    (y : B) :
  Forall2 R l l' -> In y l' -> exists x, In x l /\ R x y.
Proof.
  induction 1 as [|x y' l l' Hr _ IH]; simpl; [tauto|].
  intros [<-|Hin].
  - exists x. split; [now left | exact Hr].
  - destruct (IH Hin) as (x' & Hx & Hr'). exists x'. split; [now right|].
    exact Hr'.
Qed.

Section HandlerFacts.

Variable all_rows : (Title -> bool) -> list Title -> list Title.
Variable calculate_score : Title -> Profile -> Q.
Variable calculate_similarity : Title -> Title -> Q.
Variable strip : string -> string.

(** The recommendation handler on what its engine call returns. *)
Lemma recommendations_handler_formats (db : DB) (pid limit : Z)
    (exclude_param : string) (recs : list (gmap string pyval)) :
  Sql.get_recommendations all_rows calculate_score db pid (Z.min limit 50)
    (App.exclude_argument (App.parse_exclude strip exclude_param))
  = Sql.Returned recs ->
  exists data,
    App.get_recommendations all_rows calculate_score strip db pid limit
      exclude_param
    = App.Success [("profile_id", VInt pid)] data (Z.of_nat (length data)) /\
    Forall2 recommendation_copy recs data.
Proof.
  intros H. unfold App.get_recommendations; cbv zeta. rewrite H.
  apply respond_returned.
  eapply List.Forall_impl;
    [|eapply sql_recommendations_are_records; exact H].
  intros r (t & sc & ->). apply format_recommendation_record.
Qed.

Lemma category_handler_formats (db : DB) (pid : Z) (category : string)
    (limit : Z) (recs : list (gmap string pyval)) :
  Sql.get_recommendations_by_category all_rows calculate_score db pid
    category (Z.min limit 50) = Sql.Returned recs ->
  exists data,
    App.get_recommendations_by_category all_rows calculate_score db pid
      category limit
    = App.Success [("profile_id", VInt pid); ("category", VStr category)]
                  data (Z.of_nat (length data)) /\
    Forall2 category_copy recs data.
Proof.
  intros H. unfold App.get_recommendations_by_category; cbv zeta. rewrite H.
  apply respond_returned.
  eapply List.Forall_impl; [|eapply sql_category_are_records; exact H].
  intros r (t & sc & ->). apply format_category_record.
Qed.

Lemma similar_handler_formats (db : DB) (sid : string) (limit : Z) :
  exists recs data,
    Sql.get_similar_titles all_rows calculate_similarity db sid
      (Z.min limit 20) = Sql.Returned recs /\
    App.get_similar_titles all_rows calculate_similarity db sid limit
    = App.Success [("show_id", VStr sid)] data (Z.of_nat (length data)) /\
    Forall2 similar_copy recs data.
Proof.
  destruct (sql_similar_titles_returned all_rows calculate_similarity db sid
              (Z.min limit 20)) as (recs & H & Hrec & _).
  exists recs. unfold App.get_similar_titles; cbv zeta. rewrite H.
  edestruct (respond_returned [("show_id", VStr sid)] App.similar_fields recs
               similar_copy) as (data & E & H2).
  - eapply List.Forall_impl; [|exact Hrec].
    intros r (t & sc & ->). apply format_similar_record.
  - exists data. repeat split; trivial.
Qed.

(** A success body of the recommendation handler is the display of what
    the engine returned for the capped limit and the parsed exclusion. *)
Lemma recommendations_handler_success (db : DB) (pid limit : Z)
    (exclude_param : string) (echo : list (string * pyval))
    (data : list (gmap string pyval)) (count : Z) :
  App.get_recommendations all_rows calculate_score strip db pid limit
    exclude_param = App.Success echo data count ->
  exists recs,
    Sql.get_recommendations all_rows calculate_score db pid (Z.min limit 50)
      (App.exclude_argument (App.parse_exclude strip exclude_param))
    = Sql.Returned recs /\
    Forall2 recommendation_copy recs data /\
    count = Z.of_nat (length data).
Proof.
  intros H. pose proof H as H'.
  unfold App.get_recommendations in H'; cbv zeta in H'.
  apply respond_success in H'. destruct H' as (recs & Hc & _ & _ & Hn).
  exists recs. split; [exact Hc|].
  destruct (recommendations_handler_formats db pid limit exclude_param recs Hc)
    as (data' & E & H2).
  rewrite H in E. injection E as -> ->. split; [exact H2 | exact Hn].
Qed.

Lemma category_handler_success (db : DB) (pid : Z) (category : string)
    (limit : Z) (echo : list (string * pyval))
    (data : list (gmap string pyval)) (count : Z) :
  App.get_recommendations_by_category all_rows calculate_score db pid
    category limit = App.Success echo data count ->
  exists recs,
    Sql.get_recommendations_by_category all_rows calculate_score db pid
      category (Z.min limit 50) = Sql.Returned recs /\
    Forall2 category_copy recs data /\
    count = Z.of_nat (length data).
Proof.
  intros H. pose proof H as H'.
  unfold App.get_recommendations_by_category in H'; cbv zeta in H'.
  apply respond_success in H'. destruct H' as (recs & Hc & _ & _ & Hn).
  exists recs. split; [exact Hc|].
  destruct (category_handler_formats db pid category limit recs Hc)
    as (data' & E & H2).
  rewrite H in E. injection E as -> ->. split; [exact H2 | exact Hn].
Qed.

(** The three handlers that call the engine take their [except] branch
    only on what the engine raises: no [KeyError] arises, since every key
    they read is a key of the engine's records.  For a profile id that
    fits the store's 64-bit integer the two recommendation handlers
    return a success body, and the similar-titles handler does so for
    every show id; its [count] is the number of its data records, and its
    data are the engine's records in the engine's order, each with its
    show id, category and score copied and without the [title] object.
    For a profile id that does not fit, the two recommendation handlers
    answer with status 500 and the [OverflowError] of the lookup. *)
Theorem handlers_format_every_engine_record :
  forall db : DB,
    (forall (pid limit : Z) (exclude_param : string),
        (Sql.fits_int64 pid = true ->
         exists recs data,
           Sql.get_recommendations all_rows calculate_score db pid
             (Z.min limit 50)
             (App.exclude_argument (App.parse_exclude strip exclude_param))
           = Sql.Returned recs /\
           App.get_recommendations all_rows calculate_score strip db pid
             limit exclude_param
           = App.Success [("profile_id", VInt pid)] data
                         (Z.of_nat (length data)) /\
           Forall2 recommendation_copy recs data) /\
        (Sql.fits_int64 pid = false ->
         App.get_recommendations all_rows calculate_score strip db pid
           limit exclude_param
         = App.Error 500 Sql.OverflowError)) /\
    (forall (pid : Z) (category : string) (limit : Z),
        (Sql.fits_int64 pid = true ->
         exists recs data,
           Sql.get_recommendations_by_category all_rows calculate_score db
             pid category (Z.min limit 50)
           = Sql.Returned recs /\
           App.get_recommendations_by_category all_rows calculate_score db
             pid category limit
           = App.Success
               [("profile_id", VInt pid); ("category", VStr category)]
               data (Z.of_nat (length data)) /\
           Forall2 category_copy recs data) /\
        (Sql.fits_int64 pid = false ->
         App.get_recommendations_by_category all_rows calculate_score db
           pid category limit
         = App.Error 500 Sql.OverflowError)) /\
    (forall (sid : string) (limit : Z),
        exists recs data,
          Sql.get_similar_titles all_rows calculate_similarity db sid
            (Z.min limit 20)
          = Sql.Returned recs /\
          App.get_similar_titles all_rows calculate_similarity db sid limit
          = App.Success [("show_id", VStr sid)] data
                        (Z.of_nat (length data)) /\
          Forall2 similar_copy recs data).
Proof.
  intros db. split; [|split].
  - intros pid limit exclude_param. split; intros Hfit.
    + destruct (sql_recommendations_total all_rows calculate_score db pid
                  (Z.min limit 50)
                  (App.exclude_argument (App.parse_exclude strip exclude_param))
                  Hfit) as [recs Hc].
      destruct (recommendations_handler_formats db pid limit exclude_param
                  recs Hc) as (data & E & H2).
      exists recs, data. repeat split; trivial.
    + unfold App.get_recommendations; cbv zeta.
      now rewrite sql_recommendations_raised.
  - intros pid category limit. split; intros Hfit.
    + destruct (sql_category_total all_rows calculate_score db pid category
                  (Z.min limit 50) Hfit) as [recs Hc].
      destruct (category_handler_formats db pid category limit recs Hc)
        as (data & E & H2).
      exists recs, data. repeat split; trivial.
    + unfold App.get_recommendations_by_category; cbv zeta.
      now rewrite sql_category_raised.
  - intros sid limit. apply similar_handler_formats.
Qed.

(** The recommendation handler reads the sub-category with [rec.get],
    and the engine's records have no such key: every record of a success
    body it returns carries a null [sub_category], whatever the title. *)
Theorem api_sub_category_is_always_null :
  forall (db : DB) (pid limit : Z) (exclude_param : string)
         (data : list (gmap string pyval)),
    data_of (App.get_recommendations all_rows calculate_score strip db pid
               limit exclude_param)
    = Some data ->
    Forall (fun d : gmap string pyval => d !! "sub_category" = Some VNone)
           data.
Proof.
  intros db pid limit exclude_param data H.
  destruct (App.get_recommendations _ _ _ _ _ _ _) as [echo data' count|c e]
    eqn:E; [|discriminate].
  injection H as ->.
  apply recommendations_handler_success in E.
  destruct E as (recs & _ & H2 & _).
  induction H2 as [|rec d recs ds Hc _ IH]; constructor; [|exact IH].
  apply Hc.
Qed.

(** For a non-negative [limit] argument the [count] of every success
    body is at most the argument and at most the handler's cap: 50 for
    the two recommendation handlers, 20 for similar titles, whose answer
    is always a success body. *)
Theorem api_count_within_cap :
  forall (db : DB) (limit : Z),
    0 <= limit ->
    (forall (pid : Z) (exclude_param : string) echo data count,
        App.get_recommendations all_rows calculate_score strip db pid limit
          exclude_param
        = App.Success echo data count ->
        count = Z.of_nat (length data) /\ count <= limit /\ count <= 50) /\
    (forall (pid : Z) (category : string) echo data count,
        App.get_recommendations_by_category all_rows calculate_score db pid
          category limit
        = App.Success echo data count ->
        count = Z.of_nat (length data) /\ count <= limit /\ count <= 50) /\
    (forall sid : string,
        exists echo data count,
          App.get_similar_titles all_rows calculate_similarity db sid limit
          = App.Success echo data count /\
          count = Z.of_nat (length data) /\ count <= limit /\ count <= 20).
Proof.
  intros db limit Hl. split; [|split].
  - intros pid exclude_param echo data count H.
    apply recommendations_handler_success in H.
    destruct H as (recs & Hc & H2 & ->).
    apply Forall2_length in H2.
    apply sql_recommendations_length_le in Hc; lia.
  - intros pid category echo data count H.
    apply category_handler_success in H.
    destruct H as (recs & Hc & H2 & ->).
    apply Forall2_length in H2.
    apply sql_category_returned in Hc. destruct Hc as (all_recs & _ & ->).
    pose proof (slice_to_length_le
                  (List.filter (category_is category) all_recs)
                  (Z.min limit 50) ltac:(lia)) as Hle.
    lia.
  - intros sid.
    destruct (similar_handler_formats db sid limit) as (recs & data & Hc & E & H2).
    apply Forall2_length in H2.
    destruct (sql_similar_titles_returned all_rows calculate_similarity db sid
                (Z.min limit 20)) as (recs' & Hc' & _ & Hle).
    rewrite Hc in Hc'. injection Hc' as <-.
    specialize (Hle ltac:(lia)).
    do 3 eexists. split; [exact E|]. split; [reflexivity|]. lia.
Qed.

(** An id the store does not know is no error for these handlers as long
    as it can be bound: for an unknown profile id that fits the store's
    64-bit integer the two recommendation handlers, and for an unknown
    show id the similar-titles handler, answer with a success body
    holding no data and count 0; for a profile id that does not fit, the
    two recommendation handlers answer with status 500. *)
Theorem api_unknown_ids_give_empty_success :
  forall db : DB,
    (forall (pid limit : Z) (exclude_param category : string),
        Sql.fits_int64 pid = true ->
        (forall p, In p (profiles db) -> profile_id p <> pid) ->
        App.get_recommendations all_rows calculate_score strip db pid limit
          exclude_param
        = App.Success [("profile_id", VInt pid)] [] 0 /\
        App.get_recommendations_by_category all_rows calculate_score db pid
          category limit
        = App.Success [("profile_id", VInt pid); ("category", VStr category)]
                      [] 0) /\
    (forall (pid limit : Z) (exclude_param category : string),
        Sql.fits_int64 pid = false ->
        App.get_recommendations all_rows calculate_score strip db pid limit
          exclude_param
        = App.Error 500 Sql.OverflowError /\
        App.get_recommendations_by_category all_rows calculate_score db pid
          category limit
        = App.Error 500 Sql.OverflowError) /\
    (forall (sid : string) (limit : Z),
        (forall t, In t (titles db) -> show_id t <> sid) ->
        App.get_similar_titles all_rows calculate_similarity db sid limit
        = App.Success [("show_id", VStr sid)] [] 0).
Proof.
  intros db. split; [|split].
  - intros pid limit exclude_param category Hfit H.
    unfold App.get_recommendations, App.get_recommendations_by_category;
      cbv zeta.
    unfold Sql.get_recommendations_by_category, Sql.get_recommendations.
    rewrite sql_profile_lookup by exact Hfit.
    rewrite get_profile_by_id_absent by exact H. simpl.
    replace (Py.slice_to [] (Z.min limit 50))
      with (@nil (gmap string pyval))
      by (unfold Py.slice_to; destruct (0 <=? _); now rewrite firstn_nil).
    split; reflexivity.
  - intros pid limit exclude_param category Hfit.
    unfold App.get_recommendations, App.get_recommendations_by_category;
      cbv zeta.
    rewrite sql_category_raised, sql_recommendations_raised by exact Hfit.
    split; reflexivity.
  - intros sid limit H. unfold App.get_similar_titles; cbv zeta.
    unfold Sql.get_similar_titles.
    rewrite get_title_by_show_id_absent by exact H. reflexivity.
Qed.

(** A show id named in the [exclude] argument never appears in a
    response: for every comma-separated field of the argument whose
    stripped text is not empty, no data record of a success body carries
    that stripped text as its show id; [strip] stands for [str.strip],
    whatever it removes. *)
Theorem api_excluded_ids_are_absent :
  forall (db : DB) (pid limit : Z) (exclude_param field : string)
         (data : list (gmap string pyval)),
    In field (Py.split ","%char exclude_param) ->
    strip field <> "" ->
    data_of (App.get_recommendations all_rows calculate_score strip db pid
               limit exclude_param)
    = Some data ->
    Forall (fun d : gmap string pyval =>
              d !! "show_id" <> Some (VStr (strip field)))
           data.
Proof.
  intros db pid limit exclude_param field data Hf Hs H.
  destruct (App.get_recommendations _ _ _ _ _ _ _) as [echo data' count|c e]
    eqn:E; [|discriminate].
  injection H as ->.
  apply recommendations_handler_success in E.
  destruct E as (recs & Hc & H2 & _).
  apply List.Forall_forall. intros d Hd.
  destruct (Forall2_In_r _ _ _ _ H2 Hd) as (rec & Hrec & Hcopy).
  destruct Hcopy as (-> & _).
  assert (Hin : In (strip field) (App.parse_exclude strip exclude_param)).
  { unfold App.parse_exclude. apply in_map, filter_In. split; [exact Hf|].
    apply negb_true_iff, String.eqb_neq, Hs. }
  destruct (sql_recommendations_in _ _ _ _ _ _ _ _ Hc Hrec)
    as (profile & t & _ & _ & Hex & ->).
  change (Some (VStr (show_id t)) <> Some (VStr (strip field))).
  intros Eq. injection Eq as Eq.
  apply (Hex (App.parse_exclude strip exclude_param)).
  - unfold App.exclude_argument.
    destruct (App.parse_exclude strip exclude_param);
      [destruct Hin | reflexivity].
  - now rewrite Eq.
Qed.

End HandlerFacts.

Lemma handlers_format_every_engine_record_witness :
  (exists recs data,
      Sql.get_recommendations (@List.filter Title)
        (_calculate_score log10_stub) db0 2 (Z.min 10 50)
        (App.exclude_argument (App.parse_exclude Py.strip "s9, s1 ,"))
      = Sql.Returned recs /\
      App.get_recommendations (@List.filter Title)
        (_calculate_score log10_stub) Py.strip db0 2 10 "s9, s1 ,"
      = App.Success [("profile_id", VInt 2)] data (Z.of_nat (length data)) /\
      Forall2 recommendation_copy recs data) /\
  App.get_recommendations (@List.filter Title) (_calculate_score log10_stub)
    Py.strip db0 (2 ^ 63) 10 ""
  = App.Error 500 Sql.OverflowError.
Proof.
  split.
  - destruct (handlers_format_every_engine_record (@List.filter Title)
                (_calculate_score log10_stub) _calculate_similarity Py.strip
                db0) as (H & _).
    apply (H 2 10 "s9, s1 ,"). reflexivity.
  - destruct (handlers_format_every_engine_record (@List.filter Title)
                (_calculate_score log10_stub) _calculate_similarity Py.strip
                db0) as (H & _).
    apply (H (2 ^ 63) 10 ""). reflexivity.
Defined.

Lemma api_sub_category_is_always_null_witness :
  Forall (fun d : gmap string pyval => d !! "sub_category" = Some VNone)
    (default []
       (data_of (App.get_recommendations (@List.filter Title)
                   (_calculate_score log10_stub) Py.strip db0 1 10 ""))).
Proof.
  apply (api_sub_category_is_always_null (@List.filter Title)
           (_calculate_score log10_stub) Py.strip db0 1 10 "").
  reflexivity.
Defined.

Lemma api_count_within_cap_witness :
  match App.get_recommendations (@List.filter Title)
          (_calculate_score log10_stub) Py.strip db0 2 3 "" with
  | App.Success _ data count =>
      count = Z.of_nat (length data) /\ count <= 3 /\ count <= 50
  | App.Error _ _ => False
  end.
Proof.
  assert (H : 0 <= 3) by lia.
  destruct (App.get_recommendations (@List.filter Title)
              (_calculate_score log10_stub) Py.strip db0 2 3 "")
    as [echo data count|c e] eqn:E.
  - exact (proj1 (api_count_within_cap (@List.filter Title)
                    (_calculate_score log10_stub) _calculate_similarity
                    Py.strip db0 3 H) 2 "" echo data count E).
  - vm_compute in E. discriminate E.
Defined.

Lemma api_unknown_ids_give_empty_success_witness :
  App.get_recommendations (@List.filter Title) (_calculate_score log10_stub)
    Py.strip db0 99 10 ""
  = App.Success [("profile_id", VInt 99)] [] 0 /\
  App.get_similar_titles (@List.filter Title) _calculate_similarity
    db0 "not-a-real-id" 10
  = App.Success [("show_id", VStr "not-a-real-id")] [] 0.
Proof.
  destruct (api_unknown_ids_give_empty_success (@List.filter Title)
              (_calculate_score log10_stub) _calculate_similarity Py.strip db0)
    as (Hrec & _ & Hsim).
  split.
  - apply (Hrec 99 10 "" "Drama"); [reflexivity|]. intros p Hp. simpl in Hp.
    destruct Hp as [<-|[<-|[]]]; discriminate.
  - apply Hsim. intros t Ht. simpl in Ht.
    destruct Ht as [<-|[<-|[<-|[<-|[]]]]]; discriminate.
Defined.

Example api_recommendations_for_adult :
  match App.get_recommendations (@List.filter Title)
          (_calculate_score log10_stub) Py.strip db0 2 10 "s9, s1 ," with
  | App.Success _ data count =>
      (map (fun d : gmap string pyval => d !! "show_id") data, count)
      = ([Some (VStr "s4"); Some (VStr "s3"); Some (VStr "s2")], 3)
  | App.Error _ _ => False
  end.
Proof. reflexivity. Qed.

Lemma api_excluded_ids_are_absent_witness :
  Forall (fun d : gmap string pyval =>
            d !! "show_id" <> Some (VStr (Py.strip " s1 ")))
    (default []
       (data_of (App.get_recommendations (@List.filter Title)
                   (_calculate_score log10_stub) Py.strip db0 2 10
                   "s9, s1 ,"))).
Proof.
  apply (api_excluded_ids_are_absent (@List.filter Title)
           (_calculate_score log10_stub) Py.strip db0 2 10 "s9, s1 ," " s1 ").
  - simpl. tauto.
  - discriminate.
  - reflexivity.
Defined.

(** ** The store helpers and the category list *)

(** The store's copy of the age policy agrees with the engine's: for
    every profile [_get_appropriate_age_ratings] on its age band and kids
    flag returns the list [_get_age_ratings] returns. *)
Theorem age_policy_copies_agree :
  forall p : Profile,
    Queries._get_appropriate_age_ratings (age_band p) (kids_profile p)
    = _get_age_ratings p.
Proof. intros p. reflexivity. Qed.

(** Whatever order the database gives the rows and however it cuts them
    to the limit: every title [get_titles_for_profile] returns is one of
    the engine's candidates for that profile; it returns, and returns the
    empty list, for an unknown profile id that fits the store's 64-bit
    integer; it returns for a stored profile when the limit fits; and it
    raises [OverflowError] for a profile id that does not fit. *)
Theorem titles_for_profile_are_candidates :
  forall (order_by_imdb : list Title -> list Title)
         (sql_limit : Z -> list Title -> list Title),
    (forall l, Permutation (order_by_imdb l) l) ->
    (forall n l t, In t (sql_limit n l) -> In t l) ->
    forall (db : DB) (pid limit : Z),
      (forall l,
          Queries.get_titles_for_profile order_by_imdb sql_limit db pid limit
          = Sql.Returned l ->
          match get_profile_by_id db pid with
          | Some profile =>
              forall t, In t l -> In t (_get_candidate_titles db profile)
          | None => l = []
          end) /\
      (Sql.fits_int64 pid = true ->
       (forall p, In p (profiles db) -> profile_id p <> pid) ->
       Queries.get_titles_for_profile order_by_imdb sql_limit db pid limit
       = Sql.Returned []) /\
      (Sql.fits_int64 pid = true -> Sql.fits_int64 limit = true ->
       exists l,
         Queries.get_titles_for_profile order_by_imdb sql_limit db pid limit
         = Sql.Returned l) /\
      (Sql.fits_int64 pid = false ->
       Queries.get_titles_for_profile order_by_imdb sql_limit db pid limit
       = Sql.Raised Sql.OverflowError).
Proof.
  intros order_by_imdb sql_limit Hperm Hlim db pid limit.
  unfold Queries.get_titles_for_profile, Sql.get_profile_by_id.
  split; [|split; [|split]].
  - intros l. destruct (Sql.fits_int64 pid); [|discriminate].
    destruct (get_profile_by_id db pid) as [profile|].
    + cbv zeta. destruct (Sql.fits_int64 limit); [|discriminate].
      intros H. injection H as <-. intros t Ht. apply Hlim in Ht.
      apply (Permutation_in _ (Hperm _)) in Ht. exact Ht.
    + intros H. now injection H as <-.
  - intros -> H. now rewrite get_profile_by_id_absent.
  - intros -> Hl. destruct (get_profile_by_id db pid) as [profile|].
    + cbv zeta. rewrite Hl. eexists. reflexivity.
    + eexists. reflexivity.
  - intros ->. reflexivity.
Qed.

Lemma titles_for_profile_are_candidates_witness :
  (exists l,
      Queries.get_titles_for_profile (fun l => l)
        (fun n l => firstn (Z.to_nat n) l) db0 1 2 = Sql.Returned l) /\
  Queries.get_titles_for_profile (fun l => l)
    (fun n l => firstn (Z.to_nat n) l) db0 (2 ^ 63) 2
  = Sql.Raised Sql.OverflowError.
Proof.
  split.
  - apply (titles_for_profile_are_candidates (fun l => l)
             (fun n l => firstn (Z.to_nat n) l)
             (fun l => Permutation_refl l)
             (fun n l t => In_firstn (Z.to_nat n) l t) db0 1 2); reflexivity.
  - apply (titles_for_profile_are_candidates (fun l => l)
             (fun n l => firstn (Z.to_nat n) l)
             (fun l => Permutation_refl l)
             (fun n l t => In_firstn (Z.to_nat n) l t) db0 (2 ^ 63) 2).
    reflexivity.
Defined.

Example titles_for_kids_profile :
  Queries.get_titles_for_profile (fun l => l)
    (fun n l => firstn (Z.to_nat n) l) db0 1 2
  = Sql.Returned [t_anim; t_anim2].
Proof. reflexivity. Qed.

Lemma insert_str_perm (x : string) (l : list string) :
  Permutation (App.insert_str x l) (x :: l).
Proof.
  induction l as [|y l IH]; simpl; [apply Permutation_refl|].
  destruct (String.leb x y); [apply Permutation_refl|].
  eapply perm_trans; [apply perm_skip, IH | apply perm_swap].
Qed.

Lemma sorted_str_perm (l : list string) : Permutation (App.sorted_str l) l.
Proof.
  induction l as [|x l IH]; simpl; [apply perm_nil|].
  eapply perm_trans; [apply insert_str_perm | now apply perm_skip].
Qed.

Lemma insert_str_sorted (x : string) (l : list string) :
  Sorted (fun a b => String.leb a b = true) l ->
  Sorted (fun a b => String.leb a b = true) (App.insert_str x l).
Proof.
  induction 1 as [|y l Hs IH Hhd]; simpl; [repeat constructor|].
  destruct (String.leb x y) eqn:E; [repeat constructor; trivial|].
  constructor; [exact IH|].
  assert (Hyx : String.leb y x = true)
    by (destruct (String.leb_total x y); congruence).
  destruct l as [|z l]; simpl; [now constructor|].
  destruct (String.leb x z); constructor; trivial. now inversion Hhd.
Qed.

Lemma sorted_str_sorted (l : list string) :
  Sorted (fun a b => String.leb a b = true) (App.sorted_str l).
Proof.
  induction l as [|x l IH]; simpl; [constructor | now apply insert_str_sorted].
Qed.

(** The category list of the categories and dashboard handlers is in
    ascending order without repetition, and holds exactly the categories
    of the stored titles other than the empty one and ['Unknown']. *)
Theorem categories_list_sorted_distinct_complete :
  forall db : DB,
    Sorted (fun a b => String.leb a b = true) (App.categories_list db) /\
    List.NoDup (App.categories_list db) /\
    (forall c,
        In c (App.categories_list db) <->
        (exists t, In t (titles db) /\ category t = c) /\
        c <> "" /\ c <> "Unknown").
Proof.
  intros db. unfold App.categories_list; cbv zeta. split; [|split].
  - apply sorted_str_sorted.
  - eapply Permutation_NoDup; [apply Permutation_sym, sorted_str_perm|].
    apply List.NoDup_filter, List.NoDup_nodup.
  - intros c. split.
    + intros H. apply (Permutation_in _ (sorted_str_perm _)) in H.
      apply filter_In in H. destruct H as [H Hk].
      apply List.nodup_In, in_map_iff in H. destruct H as (t & E & Ht).
      apply andb_true_iff in Hk. destruct Hk as [H1 H2].
      apply negb_true_iff, String.eqb_neq in H1, H2.
      split; [exists t; tauto | tauto].
    + intros ((t & Ht & E) & H1 & H2).
      apply (Permutation_in _ (Permutation_sym (sorted_str_perm _))).
      apply filter_In. split.
      * apply List.nodup_In, in_map_iff. exists t. tauto.
      * apply andb_true_iff.
        split; apply negb_true_iff, String.eqb_neq; assumption.
Qed.

Example categories_of_small_catalogue :
  App.categories_list db0 = ["Animation"; "Drama"].
Proof. reflexivity. Qed.

(** ** The paginated listing *)

Lemma pages_concat {A} (n : nat) (l : list A) (m : nat) :
  (0 < n)%nat -> (length l <= m * n)%nat ->
  concat (map (fun k => firstn n (skipn (k * n) l)) (seq 0 m)) = l.
Proof.
  intros Hn. revert l. induction m as [|m IH]; intros l Hl.
  - destruct l; [reflexivity | simpl in Hl; lia].
  - simpl seq. rewrite <- seq_shift, map_cons, map_map. simpl concat.
    rewrite (map_ext _ (fun k => firstn n (skipn (k * n) (skipn n l)))).
    + rewrite IH; [apply firstn_skipn|]. rewrite length_skipn. lia.
    + intros k. rewrite skipn_skipn. do 2 f_equal. lia.
Qed.

Lemma fits_int64_bounds (z : Z) :
  Sql.fits_int64 z = true <->
  - 9223372036854775808 <= z <= 9223372036854775807.
Proof.
  unfold Sql.fits_int64.
  change (2 ^ 63) with 9223372036854775808.
  rewrite andb_true_iff, !Z.leb_le. lia.
Qed.

Section PagingFacts.

Variable order_by : string -> bool -> list Title -> list Title.

(** What the listing answers when the offset can be bound and [per_page]
    is at least 1. *)
Lemma listing_succeeds (db : DB) (page per_page : Z) (sort_by order : string) :
  1 <= per_page ->
  Sql.fits_int64 ((Z.max page 1 - 1) * Z.min per_page 100) = true ->
  Paging.get_titles_paginated order_by db page per_page sort_by order
  = Paging.Success
      (map Paging.to_dict
         (firstn (Z.to_nat (Z.min per_page 100))
            (skipn (Z.to_nat ((Z.max page 1 - 1) * Z.min per_page 100))
               (Paging.listed order_by db sort_by order))))
      (Z.max page 1) (Z.min per_page 100) (Z.of_nat (length (titles db)))
      ((Z.of_nat (length (titles db)) + Z.min per_page 100 - 1)
         / Z.min per_page 100).
Proof.
  intros H Hfit. unfold Paging.get_titles_paginated, Paging.listed; cbv zeta.
  rewrite Hfit.
  assert (Hp : Sql.fits_int64 (Z.min per_page 100) = true)
    by (apply fits_int64_bounds; lia).
  rewrite Hp. simpl negb. cbv iota.
  destruct (Z.eqb_spec (Z.min per_page 100) 0) as [E|E]; [lia|].
  unfold Paging.offset_limit; cbv zeta.
  destruct (Z.ltb_spec (Z.min per_page 100) 0) as [L|L]; [lia | reflexivity].
Qed.

Lemma listing_overflows (db : DB) (page per_page : Z) (sort_by order : string) :
  Sql.fits_int64 ((Z.max page 1 - 1) * Z.min per_page 100) = false ->
  Paging.get_titles_paginated order_by db page per_page sort_by order
  = Paging.Error 500.
Proof.
  intros Hfit. unfold Paging.get_titles_paginated; cbv zeta.
  now rewrite Hfit.
Qed.

(** For a [per_page] argument of at least 1 and a page whose offset
    [(page - 1) * per_page] can be bound, that is, fits a signed 64-bit
    integer, the listing succeeds with the page number raised to at least
    1, [per_page] cut to at most 100, the number of stored titles as
    [total], and as [pages] the least number of pages that holds them
    all; a page whose offset does not fit, and a [per_page] of 0, are
    answered with status 500. *)
Theorem pagination_counts :
  forall (db : DB) (page per_page : Z) (sort_by order : string),
    (1 <= per_page ->
     Sql.fits_int64 ((Z.max page 1 - 1) * Z.min per_page 100) = true ->
     exists data pages,
       Paging.get_titles_paginated order_by db page per_page sort_by order
       = Paging.Success data (Z.max page 1) (Z.min per_page 100)
           (Z.of_nat (length (titles db))) pages /\
       (pages - 1) * Z.min per_page 100 < Z.of_nat (length (titles db))
         <= pages * Z.min per_page 100) /\
    (Sql.fits_int64 ((Z.max page 1 - 1) * Z.min per_page 100) = false ->
     Paging.get_titles_paginated order_by db page per_page sort_by order
     = Paging.Error 500) /\
    (per_page = 0 ->
     Paging.get_titles_paginated order_by db page per_page sort_by order
     = Paging.Error 500).
Proof.
  intros db page per_page sort_by order. split; [|split].
  - intros H Hfit. rewrite listing_succeeds by assumption.
    do 2 eexists. split; [reflexivity|].
    set (n := Z.min per_page 100) in *.
    set (total := Z.of_nat (length (titles db))).
    assert (Hn : 1 <= n) by (unfold n; lia).
    pose proof (Z.div_mod (total + n - 1) n ltac:(lia)) as Hdm.
    pose proof (Z.mod_pos_bound (total + n - 1) n ltac:(lia)) as Hb.
    nia.
  - apply listing_overflows.
  - intros ->. unfold Paging.get_titles_paginated; cbv zeta.
    replace ((Z.max page 1 - 1) * Z.min 0 100) with 0 by lia.
    reflexivity.
Qed.

Lemma listing_page (db : DB) (k : nat) (per_page : Z)
    (sort_by order : string) :
  1 <= per_page ->
  Sql.fits_int64 (Z.of_nat k * Z.min per_page 100) = true ->
  Paging.data_of
    (Paging.get_titles_paginated order_by db (Z.of_nat k + 1) per_page
       sort_by order)
  = map Paging.to_dict
      (firstn (Z.to_nat (Z.min per_page 100))
         (skipn (k * Z.to_nat (Z.min per_page 100))
            (Paging.listed order_by db sort_by order))).
Proof.
  intros H Hfit.
  replace (Z.of_nat k) with (Z.max (Z.of_nat k + 1) 1 - 1) in Hfit by lia.
  rewrite listing_succeeds by assumption. simpl Paging.data_of.
  replace (Z.to_nat ((Z.max (Z.of_nat k + 1) 1 - 1) * Z.min per_page 100))
    with (k * Z.to_nat (Z.min per_page 100))%nat by nia.
  reflexivity.
Qed.

(** With a [per_page] argument of at least 1, a database that orders
    rows by permuting them, and a table of fewer than [2^63] rows, the
    pages 1 to [pages] laid end to end are the whole ordered listing, and
    the listing is a permutation of the stored titles: every title
    appears once, on one page, in the listing's order. *)
Theorem pages_cover_the_listing :
  forall (db : DB) (per_page : Z) (sort_by order : string),
    1 <= per_page ->
    (forall column descending rows,
        Permutation (order_by column descending rows) rows) ->
    Z.of_nat (length (titles db)) < 2 ^ 63 ->
    concat
      (map (fun k =>
              Paging.data_of
                (Paging.get_titles_paginated order_by db (Z.of_nat k + 1)
                   per_page sort_by order))
           (seq 0 (Z.to_nat ((Z.of_nat (length (titles db))
                              + Z.min per_page 100 - 1)
                             / Z.min per_page 100))))
    = map Paging.to_dict (Paging.listed order_by db sort_by order) /\
    Permutation (Paging.listed order_by db sort_by order) (titles db).
Proof.
  intros db per_page sort_by order H Hperm Hrows.
  change (2 ^ 63) with 9223372036854775808 in Hrows.
  assert (Hp : Permutation (Paging.listed order_by db sort_by order)
                           (titles db)).
  { unfold Paging.listed; cbv zeta. destruct (String.eqb order "desc");
      apply Hperm. }
  split; [|exact Hp].
  set (n := Z.min per_page 100).
  assert (Hn : 1 <= n) by (unfold n; lia).
  set (total := Z.of_nat (length (titles db))) in *.
  pose proof (Z.div_mod (total + n - 1) n ltac:(lia)) as Hdm.
  pose proof (Z.mod_pos_bound (total + n - 1) n ltac:(lia)) as Hb.
  assert (0 <= (total + n - 1) / n) by (apply Z.div_pos; lia).
  rewrite (map_ext_in _
             (fun k => map Paging.to_dict
                         (firstn (Z.to_nat n)
                            (skipn (k * Z.to_nat n)
                               (Paging.listed order_by db sort_by order))))).
  - rewrite <- (map_map (fun k => firstn (Z.to_nat n)
                                    (skipn (k * Z.to_nat n)
                                       (Paging.listed order_by db sort_by order)))
                        (map Paging.to_dict)).
    rewrite <- concat_map. f_equal.
    apply pages_concat; [lia|].
    rewrite (Permutation_length Hp). fold total. nia.
  - intros k Hk. apply in_seq in Hk. apply listing_page; [exact H|].
    apply fits_int64_bounds. fold n. nia.
Qed.

(** A page of the listing holds at most [per_page] records, cut to 100,
    and a page after the last one is empty. *)
Theorem page_sizes :
  forall (db : DB) (page per_page : Z) (sort_by order : string),
    1 <= per_page ->
    (forall column descending rows,
        length (order_by column descending rows) = length rows) ->
    Z.of_nat (length (Paging.data_of
                        (Paging.get_titles_paginated order_by db page
                           per_page sort_by order)))
      <= Z.min per_page 100 /\
    ((Z.of_nat (length (titles db)) + Z.min per_page 100 - 1)
       / Z.min per_page 100 < page ->
     Paging.data_of
       (Paging.get_titles_paginated order_by db page per_page sort_by order)
     = []).
Proof.
  intros db page per_page sort_by order H Hlen.
  destruct (Sql.fits_int64 ((Z.max page 1 - 1) * Z.min per_page 100)) eqn:Hfit.
  2:{ rewrite listing_overflows by exact Hfit. simpl Paging.data_of.
      split; [simpl; lia | reflexivity]. }
  rewrite listing_succeeds by assumption. simpl Paging.data_of.
  set (n := Z.min per_page 100).
  assert (Hn : 1 <= n) by (unfold n; lia).
  assert (Hl : length (Paging.listed order_by db sort_by order)
               = length (titles db)).
  { unfold Paging.listed; cbv zeta. destruct (String.eqb order "desc");
      apply Hlen. }
  split.
  - rewrite length_map. pose proof (firstn_le_length (Z.to_nat n)
      (skipn (Z.to_nat ((Z.max page 1 - 1) * n))
         (Paging.listed order_by db sort_by order))). lia.
  - intros Hp. rewrite skipn_all2; [now rewrite firstn_nil|].
    rewrite Hl.
    set (total := Z.of_nat (length (titles db))) in *.
    pose proof (Z.div_mod (total + n - 1) n ltac:(lia)) as Hdm.
    pose proof (Z.mod_pos_bound (total + n - 1) n ltac:(lia)) as Hb.
    assert (0 <= (total + n - 1) / n) by (apply Z.div_pos; lia).
    nia.
Qed.

End PagingFacts.

Lemma pagination_counts_witness :
  (exists data pages,
      Paging.get_titles_paginated (fun _ _ rows => rows) db0 0 3
        "year" "asc"
      = Paging.Success data (Z.max 0 1) (Z.min 3 100)
          (Z.of_nat (length (titles db0))) pages /\
      (pages - 1) * Z.min 3 100 < Z.of_nat (length (titles db0))
        <= pages * Z.min 3 100) /\
  Paging.get_titles_paginated (fun _ _ rows => rows) db0 (2 ^ 63) 3
    "year" "asc"
  = Paging.Error 500.
Proof.
  split.
  - apply (pagination_counts (fun _ _ rows => rows) db0 0 3 "year" "asc");
      [lia | reflexivity].
  - destruct (pagination_counts (fun _ _ rows => rows) db0 (2 ^ 63) 3
                "year" "asc") as (_ & H & _).
    apply H. reflexivity.
Defined.

Lemma pages_cover_the_listing_witness :
  concat
    (map (fun k =>
            Paging.data_of
              (Paging.get_titles_paginated (fun _ _ rows => rows) db0
                 (Z.of_nat k + 1) 3 "year" "asc"))
         (seq 0 (Z.to_nat ((Z.of_nat (length (titles db0)) + Z.min 3 100 - 1)
                           / Z.min 3 100))))
  = map Paging.to_dict (Paging.listed (fun _ _ rows => rows) db0 "year" "asc") /\
  Permutation (Paging.listed (fun _ _ rows => rows) db0 "year" "asc")
              (titles db0).
Proof.
  apply (pages_cover_the_listing (fun _ _ rows => rows) db0 3 "year" "asc");
    [lia | intros; apply Permutation_refl | reflexivity].
Defined.

Lemma page_sizes_witness :
  Z.of_nat (length (Paging.data_of
                      (Paging.get_titles_paginated (fun _ _ rows => rows) db0
                         2 3 "year" "asc")))
    <= Z.min 3 100.
Proof.
  apply (page_sizes (fun _ _ rows => rows) db0 2 3 "year" "asc");
    [lia | reflexivity].
Defined.

Example page_beyond_int64 :
  Paging.get_titles_paginated (fun _ _ rows => rows) db0 (2 ^ 63) 3
    "year" "asc"
  = Paging.Error 500.
Proof. reflexivity. Qed.

Example second_page_of_three :
  map (fun d : gmap string Paging.column_value => d !! "show_id")
      (Paging.data_of
         (Paging.get_titles_paginated (fun _ _ rows => rows) db0 2 3
            "year" "asc"))
  = [Some (Paging.CStr "s4")].
Proof. reflexivity. Qed.

(** ** The cleaning of the titles *)

Lemma clean_row_kids (r : Cleaner.Row) :
  Cleaner.is_kids_content (Cleaner.row (Cleaner.clean_row r)) = true ->
  Cleaner.age_rating r <> "16+" /\ Cleaner.age_rating r <> "18+".
Proof.
  simpl. unfold Cleaner.kids_with_adult_rating.
  destruct (Cleaner.is_kids_content r); simpl; [|discriminate].
  destruct (String.eqb_spec (Cleaner.age_rating r) "18+");
    destruct (String.eqb_spec (Cleaner.age_rating r) "16+");
    simpl; intros H; try discriminate H; split; congruence.
Qed.

Lemma clean_row_movie (r : Cleaner.Row) :
  Cleaner.type r = "Movie" ->
  Cleaner.episode_count (Cleaner.row (Cleaner.clean_row r)) <= 1.
Proof.
  intros E. simpl. unfold Cleaner.movie_with_episodes. rewrite E. simpl.
  destruct (Z.ltb_spec 1 (Cleaner.episode_count r)); lia.
Qed.

(** Every row of the cleaned frame satisfies what the engine assumes of
    the catalogue: kids content is never rated 16+ or 18+, a movie has at
    most one episode, no category, sub-category, region or language cell
    is missing, and the flag [has_imdb_data] is set exactly when the
    rating is present. *)
Theorem cleaned_rows_are_consistent :
  forall (df : list Cleaner.Row),
    Forall (fun c =>
              (Cleaner.is_kids_content (Cleaner.row c) = true ->
               Cleaner.age_rating (Cleaner.row c) <> "16+" /\
               Cleaner.age_rating (Cleaner.row c) <> "18+") /\
              (Cleaner.type (Cleaner.row c) = "Movie" ->
               Cleaner.episode_count (Cleaner.row c) <= 1) /\
              Cleaner.category (Cleaner.row c) <> None /\
              Cleaner.sub_category (Cleaner.row c) <> None /\
              Cleaner.origin_region (Cleaner.row c) <> None /\
              Cleaner.language (Cleaner.row c) <> None /\
              (Cleaner.has_imdb_data c = true <->
               Cleaner.imdb_rating (Cleaner.row c) <> None))
           (fst (Cleaner.clean_titles df)).
Proof.
  intros df. apply List.Forall_forall. intros c Hc. simpl in Hc.
  apply in_map_iff in Hc. destruct Hc as (r & <- & _).
  split; [exact (clean_row_kids r)|]. split; [exact (clean_row_movie r)|].
  simpl. repeat split; try discriminate.
  - destruct (Cleaner.sub_category r); simpl; discriminate.
  - destruct (Cleaner.imdb_rating r); simpl; congruence.
  - destruct (Cleaner.imdb_rating r); simpl; congruence.
Qed.

(** The completeness score is computed after the missing cells are
    filled, so only the rating can lower it: it is 1 for a rated title
    and 4/5 for an unrated one, never less. *)
Theorem completeness_score_is_1_or_four_fifths :
  forall (df : list Cleaner.Row),
    Forall (fun c =>
              (Cleaner.data_completeness_score c ==
               if Cleaner.has_imdb_data c then 1 else 4 # 5)%Q)
           (fst (Cleaner.clean_titles df)).
Proof.
  intros df. apply List.Forall_forall. intros c Hc. simpl in Hc.
  apply in_map_iff in Hc. destruct Hc as (r & <- & _). simpl.
  destruct (Cleaner.sub_category r), (Cleaner.imdb_rating r); reflexivity.
Qed.

(** A missing sub-category is filled with the row's category, itself
    ['Unknown'] when it was missing too; a present one is kept. *)
Theorem sub_category_falls_back_to_category :
  forall (r : Cleaner.Row),
    Cleaner.sub_category (Cleaner.row (Cleaner.clean_row r))
    = match Cleaner.sub_category r, Cleaner.category r with
      | Some s, _ => Some s
      | None, Some c => Some c
      | None, None => Some "Unknown"
      end.
Proof.
  intros r. simpl.
  destruct (Cleaner.sub_category r), (Cleaner.category r); reflexivity.
Qed.

Lemma clean_row_idempotent (r : Cleaner.Row) :
  Cleaner.clean_row (Cleaner.row (Cleaner.clean_row r)) = Cleaner.clean_row r.
Proof.
  destruct r as [sid name cat sub dur age ty yr reg lang ep kids rat votes].
  unfold Cleaner.clean_row, Cleaner.kids_with_adult_rating,
    Cleaner.movie_with_episodes; cbv zeta;
    cbn [Cleaner.row Cleaner.show_id Cleaner.title_name Cleaner.category
         Cleaner.sub_category Cleaner.duration Cleaner.age_rating Cleaner.type
         Cleaner.year Cleaner.origin_region Cleaner.language
         Cleaner.episode_count Cleaner.is_kids_content Cleaner.imdb_rating
         Cleaner.imdb_votes].
  destruct kids, (Py.str_in age ["18+"; "16+"]) eqn:S,
    (String.eqb ty "Movie") eqn:M, (1 <? ep) eqn:L, sub, cat, reg, lang, rat;
    cbn [Bool.eqb andb negb default Cleaner.isnull Cleaner.notnull id];
    rewrite ?S, ?M, ?L; cbn [andb Z.ltb Z.compare Pos.compare];
    rewrite ?L; reflexivity.
Qed.

Lemma clean_row_masks_cleared (r : Cleaner.Row) :
  Cleaner.kids_with_adult_rating (Cleaner.row (Cleaner.clean_row r)) = false /\
  Cleaner.movie_with_episodes (Cleaner.row (Cleaner.clean_row r)) = false /\
  Cleaner.isnull (Cleaner.category (Cleaner.row (Cleaner.clean_row r))) = false /\
  Cleaner.isnull (Cleaner.sub_category (Cleaner.row (Cleaner.clean_row r)))
  = false /\
  Cleaner.isnull (Cleaner.origin_region (Cleaner.row (Cleaner.clean_row r)))
  = false /\
  Cleaner.isnull (Cleaner.language (Cleaner.row (Cleaner.clean_row r))) = false.
Proof.
  destruct r as [sid name cat sub dur age ty yr reg lang ep kids rat votes].
  unfold Cleaner.clean_row, Cleaner.kids_with_adult_rating,
    Cleaner.movie_with_episodes; cbv zeta;
    cbn [Cleaner.row Cleaner.show_id Cleaner.title_name Cleaner.category
         Cleaner.sub_category Cleaner.duration Cleaner.age_rating Cleaner.type
         Cleaner.year Cleaner.origin_region Cleaner.language
         Cleaner.episode_count Cleaner.is_kids_content Cleaner.imdb_rating
         Cleaner.imdb_votes].
  destruct kids, (Py.str_in age ["18+"; "16+"]) eqn:S,
    (String.eqb ty "Movie") eqn:M, (1 <? ep) eqn:L, sub;
    cbn [Bool.eqb andb negb Cleaner.isnull];
    rewrite ?S, ?M, ?L; cbn [andb Z.ltb Z.compare Pos.compare];
    rewrite ?L; repeat split; reflexivity.
Qed.

Lemma count_none (mask : Cleaner.Row -> bool) (df : list Cleaner.Row) :
  (forall r, In r df -> mask r = false) -> Cleaner.count mask df = 0.
Proof.
  intros H. unfold Cleaner.count.
  induction df as [|r df IH]; [reflexivity|].
  simpl. rewrite (H r) by now left. apply IH. intros r' Hr'. apply H. now right.
Qed.

(** Cleaning is idempotent: cleaning the rows of a cleaned frame gives
    the same frame, and every logged count is 0, nothing being left to
    fix. *)
Theorem cleaning_twice_changes_nothing :
  forall (df : list Cleaner.Row),
    Cleaner.clean_titles (map Cleaner.row (fst (Cleaner.clean_titles df)))
    = (fst (Cleaner.clean_titles df), Cleaner.mkCounts 0 0 0 0 0 0).
Proof.
  intros df. unfold Cleaner.clean_titles. simpl fst.
  assert (Hc : forall mask : Cleaner.Row -> bool,
             (forall r, mask (Cleaner.row (Cleaner.clean_row r)) = false) ->
             Cleaner.count mask (map Cleaner.row (map Cleaner.clean_row df))
             = 0).
  { intros mask Hm. apply count_none. intros r Hr. rewrite map_map in Hr.
    apply in_map_iff in Hr. destruct Hr as (r0 & <- & _). apply Hm. }
  rewrite !Hc by (intros r; apply (clean_row_masks_cleared r)).
  f_equal. rewrite !map_map. apply map_ext. intros r.
  apply clean_row_idempotent.
Qed.

(** Cleaning keeps the rows, their order and every column it has no
    step for: the cleaned frame has one row per input row, with the same
    show id, name, duration, age rating, type, year, rating and votes. *)
Theorem cleaning_keeps_rows_and_other_columns :
  forall (df : list Cleaner.Row),
    Forall2 (fun r c =>
               Cleaner.show_id (Cleaner.row c) = Cleaner.show_id r /\
               Cleaner.title_name (Cleaner.row c) = Cleaner.title_name r /\
               Cleaner.duration (Cleaner.row c) = Cleaner.duration r /\
               Cleaner.age_rating (Cleaner.row c) = Cleaner.age_rating r /\
               Cleaner.type (Cleaner.row c) = Cleaner.type r /\
               Cleaner.year (Cleaner.row c) = Cleaner.year r /\
               Cleaner.imdb_rating (Cleaner.row c) = Cleaner.imdb_rating r /\
               Cleaner.imdb_votes (Cleaner.row c) = Cleaner.imdb_votes r)
            df (fst (Cleaner.clean_titles df)).
Proof.
  intros df. simpl. induction df as [|r df IH]; simpl; constructor.
  - repeat split.
  - exact IH.
Qed.

(** The two fix counts of the log are the numbers of rows the fixes
    change: the first counts the rows whose kids flag is cleared, the
    second the movies whose episode count is set to 1. *)
Theorem logged_counts_are_the_changes :
  forall (df : list Cleaner.Row),
    Cleaner.inconsistent_count (snd (Cleaner.clean_titles df))
    = Z.of_nat (length (List.filter
         (fun r => negb (Bool.eqb
                           (Cleaner.is_kids_content
                              (Cleaner.row (Cleaner.clean_row r)))
                           (Cleaner.is_kids_content r)))
         df)) /\
    Cleaner.movies_count (snd (Cleaner.clean_titles df))
    = Z.of_nat (length (List.filter
         (fun r => negb (Cleaner.episode_count
                           (Cleaner.row (Cleaner.clean_row r))
                         =? Cleaner.episode_count r))
         df)).
Proof.
  intros df. simpl. unfold Cleaner.count. split; do 2 f_equal.
  - apply filter_ext. intros r. unfold Cleaner.kids_with_adult_rating.
    destruct (Cleaner.is_kids_content r); simpl; [|reflexivity].
    now destruct (_ || _)%bool.
  - apply filter_ext. intros r. unfold Cleaner.movie_with_episodes.
    destruct (String.eqb (Cleaner.type r) "Movie"); simpl.
    + destruct (Z.ltb_spec 1 (Cleaner.episode_count r)) as [L|L].
      * symmetry. apply negb_true_iff, Z.eqb_neq. lia.
      * symmetry. apply negb_false_iff, Z.eqb_refl.
    + symmetry. apply negb_false_iff, Z.eqb_refl.
Qed.

Example cleaning_a_small_frame :
  map (fun c => (Cleaner.sub_category (Cleaner.row c),
                 Cleaner.is_kids_content (Cleaner.row c),
                 Cleaner.episode_count (Cleaner.row c),
                 Cleaner.has_imdb_data c))
      (fst (Cleaner.clean_titles
              [Cleaner.mkRow "s1" "A" None None 90 "18+" "Movie" 2020 None
                             (Some "en") 3 true None None;
               Cleaner.mkRow "s2" "B" (Some "Drama") None 30 "13+" "Series"
                             2021 (Some "US") None 8 true (Some (7 # 1))
                             (Some (100 # 1))]))
  = [(Some "Unknown", false, 1, false); (Some "Drama", true, 8, true)].
Proof. reflexivity. Qed.
